(** * A memory store served over four tools: reflect, recall, modify, erase

    Shallow embedding of [src/index.ts] (class [MemoryServer]) and the
    properties of its search, filter, update and delete logic.

    Conventions of the embedding.
    - A JavaScript string is a [string]; its characters stand for the code
      units U+0000..U+00FF, a range that [toLowerCase] maps into itself.
    - An optional argument ([x?: T]) is an [option]; JavaScript truthiness
      ([if (args.query)], [args.limit || 10], ...) is written out where the
      source relies on it.
    - The backing file is a value of type [File]; a handler is a computation
      in a small state-and-exception monad over it.
    - The values that a call reads from its environment (the clock, the
      UUID generator) are gathered in an [Oracle].
    - A handler's reply text is an interpolation of a few values; the
      embedding returns those values ([Response]) and not the text. *)

From Stdlib Require Import List Bool Arith ZArith Lia.
From Stdlib Require Import Ascii String.
From Stdlib Require Import Sorting.Sorted Sorting.Permutation.
Import ListNotations.

Open Scope string_scope.
Open Scope list_scope.

(* ================================================================== *)
(** ** JavaScript strings and arrays *)
(* ================================================================== *)

Module Js.

(** [String.prototype.toLowerCase] on one code unit of U+0000..U+00FF:
    the letters A-Z and the letters U+00C0..U+00DE (without the
    multiplication sign U+00D7) move up by 32, the rest stays. *)
Definition isUpper (c : ascii) : bool :=
  let n := nat_of_ascii c in
  ((65 <=? n)%nat && (n <=? 90)%nat) ||
  ((192 <=? n)%nat && (n <=? 222)%nat && negb (n =? 215)%nat).

Definition toLowerCaseChar (c : ascii) : ascii :=
  if isUpper c then ascii_of_nat (nat_of_ascii c + 32) else c.

Fixpoint toLowerCase (s : string) : string :=
  match s with
  | EmptyString => EmptyString
  | String c s' => String (toLowerCaseChar c) (toLowerCase s')
  end.

(** [s.startsWith(p)] *)
Fixpoint startsWith (s p : string) {struct p} : bool :=
  match p, s with
  | EmptyString, _ => true
  | String a p', String b s' => Ascii.eqb a b && startsWith s' p'
  | String _ _, EmptyString => false
  end.

(** [s.includes(t)]: [t] occurs in [s] at some position. *)
Fixpoint includes (s t : string) : bool :=
  startsWith s t ||
  match s with
  | EmptyString => false
  | String _ s' => includes s' t
  end.

(** Truthiness of an optional string: [undefined] and [''] are falsy. *)
Definition truthy (x : option string) : bool :=
  match x with
  | Some s => negb (String.eqb s "")
  | None => false
  end.

(** [arr.includes(x)] on an array of strings. *)
Definition arrayIncludes (arr : list string) (x : string) : bool :=
  existsb (String.eqb x) arr.

(** [arr.findIndex(p)], with [None] for the source's [-1]. *)
Fixpoint findIndex {A : Type} (p : A -> bool) (arr : list A) : option nat :=
  match arr with
  | [] => None
  | x :: rest =>
      if p x then Some 0
      else match findIndex p rest with
           | Some i => Some (S i)
           | None => None
           end
  end.

(** [arr[i] = v] for an index inside the array. *)
Fixpoint setAt {A : Type} (i : nat) (v : A) (arr : list A) : list A :=
  match arr, i with
  | [], _ => []
  | _ :: rest, 0 => v :: rest
  | x :: rest, S j => x :: setAt j v rest
  end.

(** [arr.slice(0, n)] for an integer [n]: a negative [n] counts from the
    end of the array. *)
Definition slice0 {A : Type} (arr : list A) (n : Z) : list A :=
  if (n <? 0)%Z
  then firstn (Z.to_nat (Z.max (Z.of_nat (List.length arr) + n) 0)) arr
  else firstn (Z.to_nat n) arr.

(** [arr.sort(cmp)].  The comparator yields a number; [None] stands for
    [NaN], which [sort] reads as [+0].  The sort is stable: an element is
    inserted before the first element that must come after it.  When the
    comparator orders the elements consistently, a stable sort has one
    possible result, the one computed here. *)
Definition sortCompare {A : Type} (cmp : A -> A -> option Z) (a b : A) : Z :=
  match cmp a b with
  | Some v => v
  | None => 0%Z
  end.

Fixpoint insert {A : Type} (cmp : A -> A -> option Z) (x : A) (l : list A)
  : list A :=
  match l with
  | [] => [x]
  | y :: l' =>
      if (sortCompare cmp x y <=? 0)%Z then x :: y :: l'
      else y :: insert cmp x l'
  end.

Definition sort {A : Type} (cmp : A -> A -> option Z) (arr : list A)
  : list A :=
  fold_right (insert cmp) [] arr.

End Js.

(* ================================================================== *)
(** ** Data model *)
(* ================================================================== *)

Inductive Importance := low | medium | high.

Inductive MemoryType := conversation | decision | preference | fact | other.

(** [interface Memory] *)
Record Memory := {
  id : string;
  content : string;
  tags : list string;
  context : string;
  timestamp : string;
  session_id : option string;
  importance : Importance;
  type : MemoryType
}.

(** [interface MemoryStorage] *)
Record MemoryStorage := {
  memories : list Memory;
  version : string;
  last_updated : string
}.

Definition Importance_eqb (a b : Importance) : bool :=
  match a, b with
  | low, low | medium, medium | high, high => true
  | _, _ => false
  end.

Definition MemoryType_eqb (a b : MemoryType) : bool :=
  match a, b with
  | conversation, conversation | decision, decision
  | preference, preference | fact, fact | other, other => true
  | _, _ => false
  end.

(** The arguments of the four tools, as [isValid...Args] narrows them.
    [limit] is a JavaScript number; the embedding covers the integers. *)
Module ReflectArgs.
Record t := {
  content : string;
  tags : option (list string);
  context : option string;
  session_id : option string;
  importance : option Importance;
  type : option MemoryType
}.
End ReflectArgs.

Module RecallArgs.
Record t := {
  query : option string;
  tags : option (list string);
  session_id : option string;
  importance : option Importance;
  type : option MemoryType;
  limit : option Z
}.
End RecallArgs.

Module ModifyArgs.
Record t := {
  id : string;
  content : option string;
  tags : option (list string);
  context : option string;
  importance : option Importance;
  type : option MemoryType
}.
End ModifyArgs.

Module EraseArgs.
Record t := {
  id : option string;
  query : option string;
  tags : option (list string);
  session_id : option string;
  confirm : option bool
}.
End EraseArgs.

(** The [filters] object of [filterMemories]. *)
Module Filters.
Record t := {
  tags : option (list string);
  session_id : option string;
  importance : option Importance;
  type : option MemoryType
}.
End Filters.

(* ================================================================== *)
(** ** The backing file, the environment and the handler monad *)
(* ================================================================== *)

(** What [fs.readFile] followed by [JSON.parse] meets: no readable file,
    a file that is not JSON, or a stored document.  (A file holding JSON
    of another shape is not represented.) *)
Inductive File :=
| Missing
| Unparseable
| Document (storage : MemoryStorage).

(** What one call reads from outside: [new Date().toISOString()] in
    [loadMemories], [uuidv4()] and [new Date().toISOString()] in
    [handleReflect], [new Date().toISOString()] in [saveMemories]. *)
Record Oracle := {
  loadTime : string;
  uuid : string;
  reflectTime : string;
  saveTime : string
}.

Inductive ErrorCode := InvalidParams | MethodNotFound.

Inductive Exception :=
| McpError (code : ErrorCode) (message : string)
| OtherError (message : string).

Inductive Result (A : Type) :=
| Ok (a : A)
| Throw (e : Exception).
Arguments Ok {A} a.
Arguments Throw {A} e.

(** A computation reads and writes the file and returns or throws;
    [fs.writeFile] is taken to succeed. *)
Definition M (A : Type) : Type := File -> Result A * File.

Definition ret {A : Type} (a : A) : M A := fun f => (Ok a, f).

Definition throw {A : Type} (e : Exception) : M A := fun f => (Throw e, f).

Definition bind {A B : Type} (c : M A) (k : A -> M B) : M B :=
  fun f =>
    match c f with
    | (Ok a, f') => k a f'
    | (Throw e, f') => (Throw e, f')
    end.

Notation "x <- c ;; k" := (bind c (fun x => k))
  (at level 61, c at next level, right associativity).
Notation "c ;;; k" := (bind c (fun _ => k))
  (at level 61, right associativity).

(** The values a reply text is built from. *)
Inductive Response :=
| Stored (newMemory : Memory)
| Recalled (found : list Memory)
| Modified (id : string) (originalMemory memory : Memory)
| Deleted (id : string)
| Preview (wouldDelete : list Memory)
| DeletedBulk (count : nat)
| IsError (text : string).

(* ================================================================== *)
(** ** class MemoryServer *)
(* ================================================================== *)

Definition loadMemories (o : Oracle) : M MemoryStorage :=
  fun f =>
    match f with
    | Document storage => (Ok storage, f)
    | Missing | Unparseable =>
        (Ok {| memories := []; version := "1.0.0";
               last_updated := loadTime o |}, f)
    end.

Definition saveMemories (o : Oracle) (storage : MemoryStorage) : M unit :=
  fun _ =>
    (Ok tt, Document {| memories := memories storage;
                        version := version storage;
                        last_updated := saveTime o |}).

(** The test applied by [searchMemories] to one record. *)
Definition queryMatches (searchTerm : string) (memory : Memory) : bool :=
  Js.includes (Js.toLowerCase (content memory)) searchTerm ||
  Js.includes (Js.toLowerCase (context memory)) searchTerm ||
  existsb (fun tag => Js.includes (Js.toLowerCase tag) searchTerm)
          (tags memory).

Definition searchMemories (memories : list Memory) (query : option string)
  : list Memory :=
  match query with
  | None => memories
  | Some q =>
      if String.eqb q "" then memories
      else
        let searchTerm := Js.toLowerCase q in
        filter (queryMatches searchTerm) memories
  end.

(** The four guards of [filterMemories], in the order of the source. *)
Definition tagsReject (filters : Filters.t) (memory : Memory) : bool :=
  match Filters.tags filters with
  | Some wanted =>
      negb (existsb (fun tag => Js.arrayIncludes (tags memory) tag) wanted)
  | None => false
  end.

Definition sessionReject (filters : Filters.t) (memory : Memory) : bool :=
  match Filters.session_id filters with
  | Some s =>
      negb (String.eqb s "") &&
      negb (match session_id memory with
            | Some s' => String.eqb s' s
            | None => false
            end)
  | None => false
  end.

Definition importanceReject (filters : Filters.t) (memory : Memory) : bool :=
  match Filters.importance filters with
  | Some i => negb (Importance_eqb (importance memory) i)
  | None => false
  end.

Definition typeReject (filters : Filters.t) (memory : Memory) : bool :=
  match Filters.type filters with
  | Some t => negb (MemoryType_eqb (type memory) t)
  | None => false
  end.

Definition passesFilters (filters : Filters.t) (memory : Memory) : bool :=
  if tagsReject filters memory then false
  else if sessionReject filters memory then false
  else if importanceReject filters memory then false
  else if typeReject filters memory then false
  else true.

Definition filterMemories (memories : list Memory) (filters : Filters.t)
  : list Memory :=
  filter (passesFilters filters) memories.

Definition notFound (id : string) : Exception :=
  McpError InvalidParams ("Memory with ID " ++ id ++ " not found").

Definition handleReflect (o : Oracle) (args : ReflectArgs.t) : M Response :=
  storage <- loadMemories o ;;
  let newMemory :=
    {| id := uuid o;
       content := ReflectArgs.content args;
       tags := match ReflectArgs.tags args with
               | Some ts => ts
               | None => []
               end;
       context := match ReflectArgs.context args with
                  | Some c => c
                  | None => ""
                  end;
       timestamp := reflectTime o;
       session_id := ReflectArgs.session_id args;
       importance := match ReflectArgs.importance args with
                     | Some i => i
                     | None => medium
                     end;
       type := match ReflectArgs.type args with
               | Some t => t
               | None => other
               end |} in
  let storage :=
    {| memories := memories storage ++ [newMemory];
       version := version storage;
       last_updated := last_updated storage |} in
  saveMemories o storage ;;;
  ret (Stored newMemory).

Section Recall.

(** [new Date(s).getTime()]: the milliseconds since the epoch that the
    host reads from the string [s], [None] for [NaN] (an invalid date). *)
Variable getTime : string -> option Z.

(** The comparator of [handleRecall]:
    [new Date(b.timestamp).getTime() - new Date(a.timestamp).getTime()]. *)
Definition byTimestampDesc (a b : Memory) : option Z :=
  match getTime (timestamp b), getTime (timestamp a) with
  | Some tb, Some ta => Some (tb - ta)%Z
  | _, _ => None
  end.

Definition handleRecall (o : Oracle) (args : RecallArgs.t) : M Response :=
  storage <- loadMemories o ;;
  let memories := memories storage in
  let memories :=
    if Js.truthy (RecallArgs.query args)
    then searchMemories memories (RecallArgs.query args)
    else memories in
  let memories :=
    filterMemories memories
      {| Filters.tags := RecallArgs.tags args;
         Filters.session_id := RecallArgs.session_id args;
         Filters.importance := RecallArgs.importance args;
         Filters.type := RecallArgs.type args |} in
  let memories := Js.sort byTimestampDesc memories in
  let limit :=
    match RecallArgs.limit args with
    | Some n => if (n =? 0)%Z then 10%Z else n
    | None => 10%Z
    end in
  let memories := Js.slice0 memories limit in
  ret (Recalled memories).

End Recall.

(** The assignments of [handleModify] to the record found. *)
Definition applyModify (args : ModifyArgs.t) (memory : Memory) : Memory :=
  {| id := id memory;
     content := match ModifyArgs.content args with
                | Some c => c
                | None => content memory
                end;
     tags := match ModifyArgs.tags args with
             | Some ts => ts
             | None => tags memory
             end;
     context := match ModifyArgs.context args with
                | Some c => c
                | None => context memory
                end;
     timestamp := timestamp memory;
     session_id := session_id memory;
     importance := match ModifyArgs.importance args with
                   | Some i => i
                   | None => importance memory
                   end;
     type := match ModifyArgs.type args with
             | Some t => t
             | None => type memory
             end |}.

Definition handleModify (o : Oracle) (args : ModifyArgs.t) : M Response :=
  storage <- loadMemories o ;;
  match Js.findIndex (fun m => String.eqb (id m) (ModifyArgs.id args))
                     (memories storage) with
  | None => throw (notFound (ModifyArgs.id args))
  | Some memoryIndex =>
      match nth_error (memories storage) memoryIndex with
      | None =>
          (* not reached: [findIndex] answers with an index of the array *)
          throw (OtherError "Cannot set properties of undefined")
      | Some memory =>
          let originalMemory := memory in
          let memory := applyModify args memory in
          let storage :=
            {| memories := Js.setAt memoryIndex memory (memories storage);
               version := version storage;
               last_updated := last_updated storage |} in
          saveMemories o storage ;;;
          ret (Modified (ModifyArgs.id args) originalMemory memory)
      end
  end.

(** The records a bulk erase selects: the query, then the two filters. *)
Definition eraseSelection (args : EraseArgs.t) (memories : list Memory)
  : list Memory :=
  let memories :=
    if Js.truthy (EraseArgs.query args)
    then searchMemories memories (EraseArgs.query args)
    else memories in
  filterMemories memories
    {| Filters.tags := EraseArgs.tags args;
       Filters.session_id := EraseArgs.session_id args;
       Filters.importance := None;
       Filters.type := None |}.

Definition handleErase (o : Oracle) (args : EraseArgs.t) : M Response :=
  storage <- loadMemories o ;;
  if Js.truthy (EraseArgs.id args) then
    let id' := match EraseArgs.id args with Some i => i | None => "" end in
    let initialCount := List.length (memories storage) in
    let storage :=
      {| memories :=
           filter (fun m => negb (String.eqb (id m) id')) (memories storage);
         version := version storage;
         last_updated := last_updated storage |} in
    if (List.length (memories storage) =? initialCount)%nat
    then throw (notFound id')
    else
      saveMemories o storage ;;;
      ret (Deleted id')
  else
    if negb (match EraseArgs.confirm args with
             | Some b => b
             | None => false
             end)
    then
      let memories := eraseSelection args (memories storage) in
      ret (Preview memories)
    else
      let memoriesToDelete := eraseSelection args (memories storage) in
      let deletedIds := map id memoriesToDelete in
      let storage :=
        {| memories :=
             filter (fun m => negb (Js.arrayIncludes deletedIds (id m)))
                    (memories storage);
           version := version storage;
           last_updated := last_updated storage |} in
      saveMemories o storage ;;;
      ret (DeletedBulk (List.length deletedIds)).

(** The requests of the [CallToolRequestSchema] handler. *)
Inductive Request :=
| reflect (args : ReflectArgs.t)
| recall (args : RecallArgs.t)
| modify (args : ModifyArgs.t)
| erase (args : EraseArgs.t)
| unknownTool (name : string).

(** The handler itself: an [McpError] is thrown on, any other error is
    turned into an error reply. *)
Definition callTool (getTime : string -> option Z) (o : Oracle)
  (request : Request) : M Response :=
  fun f =>
    let attempt :=
      match request with
      | reflect args => handleReflect o args
      | recall args => handleRecall getTime o args
      | modify args => handleModify o args
      | erase args => handleErase o args
      | unknownTool name =>
          throw (McpError MethodNotFound ("Unknown tool: " ++ name))
      end in
    match attempt f with
    | (Throw (OtherError message), f') => (Ok (IsError ("Error: " ++ message)), f')
    | r => r
    end.

(* ================================================================== *)
(** ** Timestamps as the server writes them *)
(* ================================================================== *)

(** [Date.prototype.toISOString] writes [YYYY-MM-DDTHH:mm:ss.sssZ].
    [IsoDate.getTime] reads that form back as milliseconds since the
    epoch and answers [None] on any other string; it is one instance of
    the [getTime] that [handleRecall] is stated over. *)
Module IsoDate.

Definition digit (c : ascii) : option Z :=
  let n := nat_of_ascii c in
  if ((48 <=? n)%nat && (n <=? 57)%nat)%bool
  then Some (Z.of_nat (n - 48))
  else None.

Fixpoint number (cs : list ascii) (acc : Z) : option Z :=
  match cs with
  | [] => Some acc
  | c :: cs' =>
      match digit c with
      | Some d => number cs' (10 * acc + d)%Z
      | None => None
      end
  end.

Definition isLeap (y : Z) : bool :=
  ((y mod 4 =? 0) && negb (y mod 100 =? 0) || (y mod 400 =? 0))%Z.

Definition daysInMonth (y m : Z) : Z :=
  if (m =? 2)%Z then (if isLeap y then 29 else 28)%Z
  else if ((m =? 4) || (m =? 6) || (m =? 9) || (m =? 11))%Z then 30%Z
  else 31%Z.

(** Days from 1970-01-01 to the civil date [y]-[m]-[d]. *)
Definition daysFromCivil (y m d : Z) : Z :=
  let y' := (if m <=? 2 then y - 1 else y)%Z in
  let era := (y' / 400)%Z in
  let yoe := (y' - era * 400)%Z in
  let mp := ((m + 9) mod 12)%Z in
  let doy := ((153 * mp + 2) / 5 + d - 1)%Z in
  let doe := (yoe * 365 + yoe / 4 - yoe / 100 + doy)%Z in
  (era * 146097 + doe - 719468)%Z.

Definition sep (c : ascii) (expected : ascii) : bool := Ascii.eqb c expected.

Definition getTime (s : string) : option Z :=
  match list_ascii_of_string s with
  | [y1; y2; y3; y4; s1; m1; m2; s2; d1; d2; s3;
     h1; h2; s4; n1; n2; s5; c1; c2; s6; f1; f2; f3; z] =>
      if (sep s1 "-" && sep s2 "-" && sep s3 "T" && sep s4 ":" &&
          sep s5 ":" && sep s6 "." && sep z "Z")%bool
      then
        match number [y1; y2; y3; y4] 0, number [m1; m2] 0,
              number [d1; d2] 0, number [h1; h2] 0,
              number [n1; n2] 0, number [c1; c2] 0,
              number [f1; f2; f3] 0 with
        | Some y, Some m, Some d, Some h, Some n, Some c, Some f =>
            if ((1 <=? m) && (m <=? 12) && (1 <=? d) &&
                (d <=? daysInMonth y m) && (h <=? 23) &&
                (n <=? 59) && (c <=? 59))%Z
            then Some ((((daysFromCivil y m d * 24 + h) * 60 + n) * 60 + c)
                       * 1000 + f)%Z
            else None
        | _, _, _, _, _, _, _ => None
        end
      else None
  | _ => None
  end.

End IsoDate.

(* ================================================================== *)
(** ** Notions the properties are stated with *)
(* ================================================================== *)

(** The records a file holds: none when there is no document. *)
Definition stored (f : File) : list Memory :=
  match f with
  | Document storage => memories storage
  | Missing | Unparseable => []
  end.

(** Two characters that differ at most in case: the same character, or a
    capital letter and the small letter 32 code units above it. *)
Definition casePair (u l : ascii) : Prop :=
  Js.isUpper u = true /\ nat_of_ascii l = nat_of_ascii u + 32.

Definition sameLetter (c d : ascii) : Prop :=
  c = d \/ casePair c d \/ casePair d c.

Inductive equalIgnoringCase : string -> string -> Prop :=
| eic_empty : equalIgnoringCase "" ""
| eic_cons c d s t :
    sameLetter c d -> equalIgnoringCase s t ->
    equalIgnoringCase (String c s) (String d t).

(** [q] occurs in [s] as a substring, case ignored. *)
Definition containsIgnoringCase (s q : string) : Prop :=
  exists before mid after : string,
    s = (before ++ mid ++ after)%string /\ equalIgnoringCase mid q.

(** The record has at least one of the requested tags. *)
Definition hasOneOf (wanted : list string) (memory : Memory) : Prop :=
  exists tag, In tag wanted /\ In tag (tags memory).

(** Most recent first, on records whose timestamps are dates. *)
Definition newerFirst (getTime : string -> option Z) (a b : Memory) : Prop :=
  exists ta tb,
    getTime (timestamp a) = Some ta /\ getTime (timestamp b) = Some tb /\
    (tb <= ta)%Z.

Definition datedAll (getTime : string -> option Z) (l : list Memory) : Prop :=
  Forall (fun m => getTime (timestamp m) <> None) l.

(** The records a recall selects before it sorts and truncates. *)
Definition recallSelection (args : RecallArgs.t) (memories : list Memory)
  : list Memory :=
  filterMemories
    (if Js.truthy (RecallArgs.query args)
     then searchMemories memories (RecallArgs.query args)
     else memories)
    {| Filters.tags := RecallArgs.tags args;
       Filters.session_id := RecallArgs.session_id args;
       Filters.importance := RecallArgs.importance args;
       Filters.type := RecallArgs.type args |}.

(** The records of a bulk erase are chosen by one test per record. *)
Definition eraseTest (args : EraseArgs.t) (m : Memory) : bool :=
  (match EraseArgs.query args with
   | Some q => String.eqb q "" || queryMatches (Js.toLowerCase q) m
   | None => true
   end) &&
  passesFilters {| Filters.tags := EraseArgs.tags args;
                   Filters.session_id := EraseArgs.session_id args;
                   Filters.importance := None;
                   Filters.type := None |} m.

(** The limit a recall applies: the one supplied, 10 when none is. *)
Definition requestedLimit (args : RecallArgs.t) : Z :=
  match RecallArgs.limit args with
  | Some n => n
  | None => 10%Z
  end.

(* ================================================================== *)
(** ** A small store used in the examples *)
(* ================================================================== *)

Module Sample.

Definition typescript : Memory :=
  {| id := "m-1";
     content := "User prefers TypeScript";
     tags := ["a"; "b"];
     context := "Discussing project setup choices";
     timestamp := "2024-01-01T00:00:00.000Z";
     session_id := None;
     importance := high;
     type := preference |}.

Definition dogs : Memory :=
  {| id := "m-2";
     content := "Y prefers dogs";
     tags := ["pref"];
     context := "";
     timestamp := "2024-03-05T10:20:30.400Z";
     session_id := Some "s1";
     importance := low;
     type := fact |}.

Definition storage : MemoryStorage :=
  {| memories := [typescript; dogs];
     version := "1.0.0";
     last_updated := "2024-03-05T10:20:30.400Z" |}.

Definition oracle : Oracle :=
  {| loadTime := "2024-06-01T08:00:00.000Z";
     uuid := "m-3";
     reflectTime := "2024-06-01T08:00:00.001Z";
     saveTime := "2024-06-01T08:00:00.002Z" |}.

End Sample.

(* ================================================================== *)
(** ** The argument validators *)
(* ================================================================== *)

(** The value a tool call carries as its arguments, before any check:
    what JSON can hold, and [undefined] for a property that is absent. *)
#[local] Unset Elimination Schemes.
Inductive JsValue :=
| JsUndefined
| JsNull
| JsBoolean (b : bool)
| JsNumber (n : Z)
| JsString (s : string)
| JsArray (items : list JsValue)
| JsObject (properties : list (string * JsValue)).
#[local] Set Elimination Schemes.

Module Validate.

(** [typeof v] *)
Definition typeof (v : JsValue) : string :=
  match v with
  | JsUndefined => "undefined"
  | JsNull => "object"
  | JsBoolean _ => "boolean"
  | JsNumber _ => "number"
  | JsString _ => "string"
  | JsArray _ => "object"
  | JsObject _ => "object"
  end.

Fixpoint lookup (properties : list (string * JsValue)) (key : string)
  : JsValue :=
  match properties with
  | [] => JsUndefined
  | (k, v) :: rest => if String.eqb k key then v else lookup rest key
  end.

(** [args.key], for the keys that the validators read: an object answers
    with its property, an array has none of these keys.  The validators
    read a property only after [typeof args === 'object' && args !== null]. *)
Definition get (args : JsValue) (key : string) : JsValue :=
  match args with
  | JsObject properties => lookup properties key
  | _ => JsUndefined
  end.

Definition isUndefined (v : JsValue) : bool :=
  match v with
  | JsUndefined => true
  | _ => false
  end.

Definition isNull (v : JsValue) : bool :=
  match v with
  | JsNull => true
  | _ => false
  end.

(** [Array.isArray(v)] *)
Definition isArray (v : JsValue) : bool :=
  match v with
  | JsArray _ => true
  | _ => false
  end.

(** [names.includes(v)] for an array literal of strings. *)
Definition includes (names : list string) (v : JsValue) : bool :=
  match v with
  | JsString s => existsb (String.eqb s) names
  | _ => false
  end.

Definition importances : list string := ["low"; "medium"; "high"].

Definition types : list string :=
  ["conversation"; "decision"; "preference"; "fact"; "other"].

Definition isValidReflectArgs (args : JsValue) : bool :=
  String.eqb (typeof args) "object" &&
  negb (isNull args) &&
  String.eqb (typeof (get args "content")) "string" &&
  (isUndefined (get args "tags") || isArray (get args "tags")) &&
  (isUndefined (get args "context") ||
   String.eqb (typeof (get args "context")) "string") &&
  (isUndefined (get args "session_id") ||
   String.eqb (typeof (get args "session_id")) "string") &&
  (isUndefined (get args "importance") ||
   includes importances (get args "importance")) &&
  (isUndefined (get args "type") || includes types (get args "type")).

Definition isValidRecallArgs (args : JsValue) : bool :=
  String.eqb (typeof args) "object" &&
  negb (isNull args) &&
  (isUndefined (get args "query") ||
   String.eqb (typeof (get args "query")) "string") &&
  (isUndefined (get args "tags") || isArray (get args "tags")) &&
  (isUndefined (get args "session_id") ||
   String.eqb (typeof (get args "session_id")) "string") &&
  (isUndefined (get args "importance") ||
   includes importances (get args "importance")) &&
  (isUndefined (get args "type") || includes types (get args "type")) &&
  (isUndefined (get args "limit") ||
   String.eqb (typeof (get args "limit")) "number").

Definition isValidModifyArgs (args : JsValue) : bool :=
  String.eqb (typeof args) "object" &&
  negb (isNull args) &&
  String.eqb (typeof (get args "id")) "string" &&
  (isUndefined (get args "content") ||
   String.eqb (typeof (get args "content")) "string") &&
  (isUndefined (get args "tags") || isArray (get args "tags")) &&
  (isUndefined (get args "context") ||
   String.eqb (typeof (get args "context")) "string") &&
  (isUndefined (get args "importance") ||
   includes importances (get args "importance")) &&
  (isUndefined (get args "type") || includes types (get args "type")).

Definition isValidEraseArgs (args : JsValue) : bool :=
  String.eqb (typeof args) "object" &&
  negb (isNull args) &&
  (isUndefined (get args "id") ||
   String.eqb (typeof (get args "id")) "string") &&
  (isUndefined (get args "query") ||
   String.eqb (typeof (get args "query")) "string") &&
  (isUndefined (get args "tags") || isArray (get args "tags")) &&
  (isUndefined (get args "session_id") ||
   String.eqb (typeof (get args "session_id")) "string") &&
  (isUndefined (get args "confirm") ||
   String.eqb (typeof (get args "confirm")) "boolean").

End Validate.

(** The argument records of the embedding, written as the objects a caller
    sends: a field that is [None] is left out. *)
Module Encode.

Definition field {A : Type} (key : string) (encode : A -> JsValue)
  (x : option A) : list (string * JsValue) :=
  match x with
  | Some a => [(key, encode a)]
  | None => []
  end.

Definition strings (l : list string) : JsValue := JsArray (map JsString l).

Definition importance (i : Importance) : JsValue :=
  JsString match i with
           | low => "low"
           | medium => "medium"
           | high => "high"
           end.

Definition type (t : MemoryType) : JsValue :=
  JsString match t with
           | conversation => "conversation"
           | decision => "decision"
           | preference => "preference"
           | fact => "fact"
           | other => "other"
           end.

Definition reflectArgs (a : ReflectArgs.t) : JsValue :=
  JsObject
    (("content", JsString (ReflectArgs.content a))
     :: field "tags" strings (ReflectArgs.tags a)
     ++ field "context" JsString (ReflectArgs.context a)
     ++ field "session_id" JsString (ReflectArgs.session_id a)
     ++ field "importance" importance (ReflectArgs.importance a)
     ++ field "type" type (ReflectArgs.type a)).

Definition recallArgs (a : RecallArgs.t) : JsValue :=
  JsObject
    (field "query" JsString (RecallArgs.query a)
     ++ field "tags" strings (RecallArgs.tags a)
     ++ field "session_id" JsString (RecallArgs.session_id a)
     ++ field "importance" importance (RecallArgs.importance a)
     ++ field "type" type (RecallArgs.type a)
     ++ field "limit" JsNumber (RecallArgs.limit a)).

Definition modifyArgs (a : ModifyArgs.t) : JsValue :=
  JsObject
    (("id", JsString (ModifyArgs.id a))
     :: field "content" JsString (ModifyArgs.content a)
     ++ field "tags" strings (ModifyArgs.tags a)
     ++ field "context" JsString (ModifyArgs.context a)
     ++ field "importance" importance (ModifyArgs.importance a)
     ++ field "type" type (ModifyArgs.type a)).

Definition eraseArgs (a : EraseArgs.t) : JsValue :=
  JsObject
    (field "id" JsString (EraseArgs.id a)
     ++ field "query" JsString (EraseArgs.query a)
     ++ field "tags" strings (EraseArgs.tags a)
     ++ field "session_id" JsString (EraseArgs.session_id a)
     ++ field "confirm" JsBoolean (EraseArgs.confirm a)).

End Encode.

(** A validator is a type guard ([args is { ... }]): once it has passed,
    the handler reads the same value at the type the guard declares, and
    no code runs for that.  [Decode] is this reading.  It is [None] where
    a value that passes the validator does not have the declared type,
    which only the items of a [tags] array can do; there the embedding
    does not follow the handler. *)
Module Decode.

Definition str (v : JsValue) : option string :=
  match v with
  | JsString s => Some s
  | _ => None
  end.

Fixpoint items (vs : list JsValue) : option (list string) :=
  match vs with
  | [] => Some []
  | JsString s :: rest =>
      match items rest with
      | Some l => Some (s :: l)
      | None => None
      end
  | _ :: _ => None
  end.

Definition strings (v : JsValue) : option (list string) :=
  match v with
  | JsArray vs => items vs
  | _ => None
  end.

Definition importance (v : JsValue) : option Importance :=
  match v with
  | JsString s =>
      if String.eqb s "low" then Some low
      else if String.eqb s "medium" then Some medium
      else if String.eqb s "high" then Some high
      else None
  | _ => None
  end.

Definition type (v : JsValue) : option MemoryType :=
  match v with
  | JsString s =>
      if String.eqb s "conversation" then Some conversation
      else if String.eqb s "decision" then Some decision
      else if String.eqb s "preference" then Some preference
      else if String.eqb s "fact" then Some fact
      else if String.eqb s "other" then Some other
      else None
  | _ => None
  end.

Definition number (v : JsValue) : option Z :=
  match v with
  | JsNumber n => Some n
  | _ => None
  end.

Definition boolean (v : JsValue) : option bool :=
  match v with
  | JsBoolean b => Some b
  | _ => None
  end.

(** An optional property: absent, or of the declared type. *)
Definition optional {A : Type} (read : JsValue -> option A) (v : JsValue)
  : option (option A) :=
  match v with
  | JsUndefined => Some None
  | _ =>
      match read v with
      | Some a => Some (Some a)
      | None => None
      end
  end.

Definition reflectArgs (args : JsValue) : option ReflectArgs.t :=
  match str (Validate.get args "content"),
        optional strings (Validate.get args "tags"),
        optional str (Validate.get args "context"),
        optional str (Validate.get args "session_id"),
        optional importance (Validate.get args "importance"),
        optional type (Validate.get args "type") with
  | Some c, Some t, Some cx, Some s, Some i, Some ty =>
      Some {| ReflectArgs.content := c; ReflectArgs.tags := t;
              ReflectArgs.context := cx; ReflectArgs.session_id := s;
              ReflectArgs.importance := i; ReflectArgs.type := ty |}
  | _, _, _, _, _, _ => None
  end.

Definition recallArgs (args : JsValue) : option RecallArgs.t :=
  match optional str (Validate.get args "query"),
        optional strings (Validate.get args "tags"),
        optional str (Validate.get args "session_id"),
        optional importance (Validate.get args "importance"),
        optional type (Validate.get args "type"),
        optional number (Validate.get args "limit") with
  | Some q, Some t, Some s, Some i, Some ty, Some n =>
      Some {| RecallArgs.query := q; RecallArgs.tags := t;
              RecallArgs.session_id := s; RecallArgs.importance := i;
              RecallArgs.type := ty; RecallArgs.limit := n |}
  | _, _, _, _, _, _ => None
  end.

Definition modifyArgs (args : JsValue) : option ModifyArgs.t :=
  match str (Validate.get args "id"),
        optional str (Validate.get args "content"),
        optional strings (Validate.get args "tags"),
        optional str (Validate.get args "context"),
        optional importance (Validate.get args "importance"),
        optional type (Validate.get args "type") with
  | Some i, Some c, Some t, Some cx, Some im, Some ty =>
      Some {| ModifyArgs.id := i; ModifyArgs.content := c;
              ModifyArgs.tags := t; ModifyArgs.context := cx;
              ModifyArgs.importance := im; ModifyArgs.type := ty |}
  | _, _, _, _, _, _ => None
  end.

Definition eraseArgs (args : JsValue) : option EraseArgs.t :=
  match optional str (Validate.get args "id"),
        optional str (Validate.get args "query"),
        optional strings (Validate.get args "tags"),
        optional str (Validate.get args "session_id"),
        optional boolean (Validate.get args "confirm") with
  | Some i, Some q, Some t, Some s, Some c =>
      Some {| EraseArgs.id := i; EraseArgs.query := q;
              EraseArgs.tags := t; EraseArgs.session_id := s;
              EraseArgs.confirm := c |}
  | _, _, _, _, _ => None
  end.

End Decode.

(** The handlers as they are called, on the arguments of the request: the
    validator first, whose failure throws, then the body on the arguments
    read at their declared type. *)
Definition handleReflectAny (o : Oracle) (args : JsValue)
  : option (M Response) :=
  if negb (Validate.isValidReflectArgs args)
  then Some (throw (McpError InvalidParams "Invalid reflect arguments"))
  else option_map (handleReflect o) (Decode.reflectArgs args).

Definition handleRecallAny (getTime : string -> option Z) (o : Oracle)
  (args : JsValue) : option (M Response) :=
  if negb (Validate.isValidRecallArgs args)
  then Some (throw (McpError InvalidParams "Invalid recall arguments"))
  else option_map (handleRecall getTime o) (Decode.recallArgs args).

Definition handleModifyAny (o : Oracle) (args : JsValue)
  : option (M Response) :=
  if negb (Validate.isValidModifyArgs args)
  then Some (throw (McpError InvalidParams "Invalid modify arguments"))
  else option_map (handleModify o) (Decode.modifyArgs args).

Definition handleEraseAny (o : Oracle) (args : JsValue)
  : option (M Response) :=
  if negb (Validate.isValidEraseArgs args)
  then Some (throw (McpError InvalidParams "Invalid erase arguments"))
  else option_map (handleErase o) (Decode.eraseArgs args).

(** The [catch] of the handler of tool calls. *)
Definition rethrowOrReply (attempt : M Response) : M Response :=
  fun f =>
    match attempt f with
    | (Throw (OtherError message), f') =>
        (Ok (IsError ("Error: " ++ message)), f')
    | r => r
    end.

(** The handler of tool calls on a request as it arrives: the name of the
    tool and the arguments. *)
Definition callToolAny (getTime : string -> option Z) (o : Oracle)
  (name : string) (arguments : JsValue) : option (M Response) :=
  option_map rethrowOrReply
    (if String.eqb name "reflect" then handleReflectAny o arguments
     else if String.eqb name "recall"
          then handleRecallAny getTime o arguments
     else if String.eqb name "modify" then handleModifyAny o arguments
     else if String.eqb name "erase" then handleEraseAny o arguments
     else Some (throw (McpError MethodNotFound ("Unknown tool: " ++ name)))).

(** The storage that [loadMemories] hands to a handler. *)
Definition loaded (o : Oracle) (f : File) : MemoryStorage :=
  match f with
  | Document storage => storage
  | Missing | Unparseable =>
      {| memories := []; version := "1.0.0"; last_updated := loadTime o |}
  end.

(** The test of a recall on one record: the query, then the filters. *)
Definition recallTest (args : RecallArgs.t) (m : Memory) : bool :=
  (match RecallArgs.query args with
   | Some q => String.eqb q "" || queryMatches (Js.toLowerCase q) m
   | None => true
   end) &&
  passesFilters {| Filters.tags := RecallArgs.tags args;
                   Filters.session_id := RecallArgs.session_id args;
                   Filters.importance := RecallArgs.importance args;
                   Filters.type := RecallArgs.type args |} m.

(** The records of one instant [t], for the order among equal timestamps. *)
Definition sameInstant (getTime : string -> option Z) (t : Z) (m : Memory)
  : bool :=
  match getTime (timestamp m) with
  | Some tm => (tm =? t)%Z
  | None => false
  end.

(** Calls on the sample store. *)
Module Calls.

Definition reflectCats : ReflectArgs.t :=
  {| ReflectArgs.content := "X prefers cats";
     ReflectArgs.tags := Some ["pref"];
     ReflectArgs.context := None;
     ReflectArgs.session_id := None;
     ReflectArgs.importance := Some high;
     ReflectArgs.type := None |}.

Definition recallPrefers (limit : option Z) : RecallArgs.t :=
  {| RecallArgs.query := Some "prefers"; RecallArgs.tags := None;
     RecallArgs.session_id := None; RecallArgs.importance := None;
     RecallArgs.type := None; RecallArgs.limit := limit |}.

Definition modifyAbsent : ModifyArgs.t :=
  {| ModifyArgs.id := "m-9"; ModifyArgs.content := Some "changed";
     ModifyArgs.tags := None; ModifyArgs.context := None;
     ModifyArgs.importance := None; ModifyArgs.type := None |}.

Definition modifyDogs : ModifyArgs.t :=
  {| ModifyArgs.id := "m-2"; ModifyArgs.content := Some "changed";
     ModifyArgs.tags := None; ModifyArgs.context := None;
     ModifyArgs.importance := Some high; ModifyArgs.type := None |}.

Definition modifyNothing : ModifyArgs.t :=
  {| ModifyArgs.id := "m-2"; ModifyArgs.content := None;
     ModifyArgs.tags := None; ModifyArgs.context := None;
     ModifyArgs.importance := None; ModifyArgs.type := None |}.

Definition eraseByTag : EraseArgs.t :=
  {| EraseArgs.id := None; EraseArgs.query := None;
     EraseArgs.tags := Some ["a"]; EraseArgs.session_id := None;
     EraseArgs.confirm := Some true |}.

Definition eraseById (i : string) : EraseArgs.t :=
  {| EraseArgs.id := Some i; EraseArgs.query := None;
     EraseArgs.tags := None; EraseArgs.session_id := None;
     EraseArgs.confirm := None |}.

Definition file : File := Document Sample.storage.

End Calls.

(* ================================================================== *)
(** ** Strings *)
(* ================================================================== *)

Lemma startsWith_spec (s p : string) :
  Js.startsWith s p = true <-> exists rest : string, s = (p ++ rest)%string.
Proof.
  revert s; induction p as [|a p IH]; intros s; simpl.
  - split; [intros _; now exists s | reflexivity].
  - destruct s as [|b s].
    + split; [discriminate | intros [r Hr]; discriminate].
    + rewrite andb_true_iff, Ascii.eqb_eq, IH. split.
      * intros [-> [r ->]]. now exists r.
      * intros [r Hr]. injection Hr as -> ->. split; [reflexivity | now exists r].
Qed.

Lemma includes_spec (s t : string) :
  Js.includes s t = true <->
  exists before after : string, s = (before ++ t ++ after)%string.
Proof.
  induction s as [|c s IH]; simpl.
  - rewrite orb_false_r, startsWith_spec. split.
    + intros [r Hr]. now exists "", r.
    + intros [b [a H]]. destruct b; [now exists a | discriminate].
  - rewrite orb_true_iff, startsWith_spec, IH. split.
    + intros [[r Hr] | [b [a H]]].
      * now exists "", r.
      * exists (String c b), a. simpl. now rewrite H.
    + intros [b [a H]]. destruct b as [|c' b]; simpl in H.
      * left. now exists a.
      * right. injection H as _ H. now exists b, a.
Qed.

Lemma toLowerCase_app (s t : string) :
  Js.toLowerCase (s ++ t) = (Js.toLowerCase s ++ Js.toLowerCase t)%string.
Proof.
  induction s as [|c s IH]; simpl; [reflexivity | now rewrite IH].
Qed.

Lemma toLowerCase_app_inv (s x y : string) :
  Js.toLowerCase s = (x ++ y)%string ->
  exists s1 s2 : string,
    s = (s1 ++ s2)%string /\ Js.toLowerCase s1 = x /\ Js.toLowerCase s2 = y.
Proof.
  revert s; induction x as [|a x IH]; intros s H; simpl in H.
  - now exists "", s.
  - destruct s as [|c s]; simpl in H; [discriminate |].
    injection H as Ha H. destruct (IH _ H) as [s1 [s2 [-> [H1 H2]]]].
    exists (String c s1), s2. simpl. now rewrite Ha, H1.
Qed.

Lemma isUpper_range (c : ascii) :
  Js.isUpper c = true <->
  (65 <= nat_of_ascii c <= 90 \/
   (192 <= nat_of_ascii c <= 222 /\ nat_of_ascii c <> 215)).
Proof.
  unfold Js.isUpper. cbv zeta.
  rewrite orb_true_iff, !andb_true_iff, negb_true_iff, !Nat.leb_le,
    Nat.eqb_neq. tauto.
Qed.

Lemma toLowerCaseChar_code (c : ascii) :
  nat_of_ascii (Js.toLowerCaseChar c) =
  if Js.isUpper c then nat_of_ascii c + 32 else nat_of_ascii c.
Proof.
  unfold Js.toLowerCaseChar. destruct (Js.isUpper c) eqn:E; [|reflexivity].
  apply nat_ascii_embedding. apply isUpper_range in E. lia.
Qed.

Lemma ascii_code_inj (c d : ascii) : nat_of_ascii c = nat_of_ascii d -> c = d.
Proof.
  intros H. rewrite <- (ascii_nat_embedding c), <- (ascii_nat_embedding d).
  now rewrite H.
Qed.

Lemma toLowerCaseChar_same (c d : ascii) :
  Js.toLowerCaseChar c = Js.toLowerCaseChar d <-> sameLetter c d.
Proof.
  split.
  - intros H. apply (f_equal nat_of_ascii) in H.
    rewrite !toLowerCaseChar_code in H. unfold sameLetter, casePair.
    destruct (Js.isUpper c) eqn:Ec, (Js.isUpper d) eqn:Ed.
    + left. apply ascii_code_inj. lia.
    + right; left. split; [reflexivity | lia].
    + right; right. split; [reflexivity | lia].
    + left. now apply ascii_code_inj.
  - intros [-> | [[Hu Hc] | [Hu Hc]]]; [reflexivity | |];
      apply ascii_code_inj; rewrite !toLowerCaseChar_code, Hu;
      apply isUpper_range in Hu.
    + destruct (Js.isUpper d) eqn:Ed; [apply isUpper_range in Ed; lia | lia].
    + destruct (Js.isUpper c) eqn:Ec; [apply isUpper_range in Ec; lia | lia].
Qed.

Lemma toLowerCase_same (s t : string) :
  Js.toLowerCase s = Js.toLowerCase t <-> equalIgnoringCase s t.
Proof.
  split.
  - revert t; induction s as [|c s IH]; intros [|d t] H; simpl in H;
      try discriminate; [constructor |].
    injection H as Hc H. constructor; [now apply toLowerCaseChar_same | auto].
  - induction 1 as [|c d s t Hc _ IH]; simpl; [reflexivity |].
    apply toLowerCaseChar_same in Hc. now rewrite Hc, IH.
Qed.

(** The test of the source, lower-casing both sides and looking for a
    substring, decides containment with case ignored. *)
Lemma includes_toLowerCase (s q : string) :
  Js.includes (Js.toLowerCase s) (Js.toLowerCase q) = true <->
  containsIgnoringCase s q.
Proof.
  rewrite includes_spec. unfold containsIgnoringCase. split.
  - intros [b [a H]].
    apply toLowerCase_app_inv in H as [s1 [s' [-> [H1 H]]]].
    apply toLowerCase_app_inv in H as [s2 [s3 [-> [H2 H3]]]].
    exists s1, s2, s3. split; [reflexivity | now apply toLowerCase_same].
  - intros [b [m [a [-> H]]]]. apply toLowerCase_same in H.
    exists (Js.toLowerCase b), (Js.toLowerCase a).
    now rewrite !toLowerCase_app, H.
Qed.

(* ================================================================== *)
(** ** Arrays *)
(* ================================================================== *)

Lemma arrayIncludes_In (arr : list string) (x : string) :
  Js.arrayIncludes arr x = true <-> In x arr.
Proof.
  unfold Js.arrayIncludes. rewrite existsb_exists. split.
  - intros [y [Hy E]]. apply String.eqb_eq in E. now subst.
  - intros H. exists x. split; [assumption | apply String.eqb_refl].
Qed.

Lemma filter_filter {A : Type} (p q : A -> bool) (l : list A) :
  filter p (filter q l) = filter (fun x => q x && p x) l.
Proof.
  induction l as [|x l IH]; simpl; [reflexivity |].
  destruct (q x); simpl; [destruct (p x) |]; now rewrite IH.
Qed.

Lemma filter_all {A : Type} (p : A -> bool) (l : list A) :
  (forall x, In x l -> p x = true) -> filter p l = l.
Proof.
  induction l as [|x l IH]; simpl; intros H; [reflexivity |].
  rewrite (H x) by now left. f_equal. apply IH. intros y Hy. apply H. now right.
Qed.

Lemma filter_none {A : Type} (p : A -> bool) (l : list A) :
  (forall x, In x l -> p x = false) -> filter p l = [].
Proof.
  induction l as [|x l IH]; simpl; intros H; [reflexivity |].
  rewrite (H x) by now left. apply IH. intros y Hy. apply H. now right.
Qed.

Lemma filter_split_length {A : Type} (p : A -> bool) (l : list A) :
  List.length (filter (fun x => negb (p x)) l) + List.length (filter p l)
  = List.length l.
Proof.
  induction l as [|x l IH]; simpl; [reflexivity |].
  destruct (p x); simpl; lia.
Qed.

Lemma findIndex_none {A : Type} (p : A -> bool) (l : list A) :
  Js.findIndex p l = None <-> forall x, In x l -> p x = false.
Proof.
  induction l as [|x l IH]; simpl.
  - split; [intros _ y [] | reflexivity].
  - destruct (p x) eqn:E.
    + split; [discriminate |]. intros H. rewrite (H x) in E by now left.
      discriminate.
    + destruct (Js.findIndex p l) as [i|].
      * split; [discriminate |]. intros H.
        assert (Hn : Some i = None); [| discriminate].
        apply IH. intros y Hy. apply H. now right.
      * split; [| reflexivity]. intros _ y [<- | Hy]; [assumption |].
        now apply IH.
Qed.

(** [findIndex] answers with the first position that passes the test. *)
Lemma findIndex_first {A : Type} (p : A -> bool) (l1 l2 : list A) (x : A) :
  (forall y, In y l1 -> p y = false) -> p x = true ->
  Js.findIndex p (l1 ++ x :: l2) = Some (List.length l1).
Proof.
  induction l1 as [|y l1 IH]; simpl; intros H Hx.
  - now rewrite Hx.
  - rewrite (H y) by now left. rewrite IH; auto.
Qed.

Lemma setAt_middle {A : Type} (l1 l2 : list A) (x v : A) :
  Js.setAt (List.length l1) v (l1 ++ x :: l2) = l1 ++ v :: l2.
Proof.
  induction l1 as [|y l1 IH]; simpl; [reflexivity | now rewrite IH].
Qed.

Lemma nth_error_middle {A : Type} (l1 l2 : list A) (x : A) :
  nth_error (l1 ++ x :: l2) (List.length l1) = Some x.
Proof.
  induction l1 as [|y l1 IH]; simpl; [reflexivity | assumption].
Qed.

(* ================================================================== *)
(** ** Sorting *)
(* ================================================================== *)

Section Sorting.

Variable getTime : string -> option Z.

Local Abbreviation cmp := (byTimestampDesc getTime).

Lemma insert_perm (x : Memory) (l : list Memory) :
  Permutation (Js.insert cmp x l) (x :: l).
Proof.
  induction l as [|y l IH]; simpl; [reflexivity |].
  destruct (Js.sortCompare cmp x y <=? 0)%Z; [reflexivity |].
  rewrite IH. apply perm_swap.
Qed.

Lemma sort_perm (l : list Memory) : Permutation (Js.sort cmp l) l.
Proof.
  induction l as [|x l IH]; simpl; [reflexivity |].
  unfold Js.sort in *. simpl. rewrite insert_perm. now constructor.
Qed.

Lemma sortCompare_dated (x y : Memory) (tx ty : Z) :
  getTime (timestamp x) = Some tx -> getTime (timestamp y) = Some ty ->
  Js.sortCompare cmp x y = (ty - tx)%Z.
Proof.
  intros Hx Hy. unfold Js.sortCompare, cmp, byTimestampDesc.
  now rewrite Hx, Hy.
Qed.

Lemma newerFirst_trans (a b c : Memory) :
  newerFirst getTime a b -> newerFirst getTime b c -> newerFirst getTime a c.
Proof.
  intros [ta [tb [Ha [Hb Hab]]]] [tb' [tc [Hb' [Hc Hbc]]]].
  rewrite Hb in Hb'. injection Hb' as <-.
  exists ta, tc. repeat split; try assumption. lia.
Qed.

Lemma insert_sorted (x : Memory) (l : list Memory) :
  getTime (timestamp x) <> None -> datedAll getTime l ->
  StronglySorted (newerFirst getTime) l ->
  StronglySorted (newerFirst getTime) (Js.insert cmp x l).
Proof.
  intros Hx Hl Hs. induction Hs as [|y l Hs IH Hy]; simpl.
  - constructor; constructor.
  - destruct (getTime (timestamp x)) as [tx|] eqn:Ex; [| contradiction].
    inversion Hl as [|? ? Hdy Hdl]; subst.
    destruct (getTime (timestamp y)) as [ty|] eqn:Ey; [| contradiction].
    rewrite (sortCompare_dated x y tx ty Ex Ey).
    destruct (ty - tx <=? 0)%Z eqn:E.
    + apply Z.leb_le in E.
      assert (Hxy : newerFirst getTime x y).
      { exists tx, ty. repeat split; try assumption. lia. }
      constructor; [now constructor |].
      constructor; [assumption |].
      rewrite Forall_forall in *. intros z Hz.
      apply newerFirst_trans with y; auto.
    + apply Z.leb_gt in E. constructor; [now apply IH |].
      rewrite Forall_forall in *. intros z Hz.
      apply (Permutation_in _ (insert_perm x l)) in Hz.
      destruct Hz as [<- | Hz]; [| auto].
      exists ty, tx. repeat split; try assumption. lia.
Qed.

Lemma sort_sorted (l : list Memory) :
  datedAll getTime l ->
  StronglySorted (newerFirst getTime) (Js.sort cmp l).
Proof.
  unfold datedAll. induction 1 as [|x l Hx Hl IH]; simpl; [constructor |].
  apply insert_sorted; [assumption | | assumption].
  unfold datedAll. rewrite Forall_forall in *. intros z Hz.
  apply Hl. exact (Permutation_in _ (sort_perm l) Hz).
Qed.

(** The sort is stable: records of one and the same instant keep the
    order they had. *)
Lemma insert_stable (t : Z) (x : Memory) (l : list Memory) :
  getTime (timestamp x) <> None -> datedAll getTime l ->
  let sameInstant m :=
    match getTime (timestamp m) with
    | Some tm => (tm =? t)%Z
    | None => false
    end in
  filter sameInstant (Js.insert cmp x l) = filter sameInstant (x :: l).
Proof.
  intros Hx Hl sameInstant. induction Hl as [|y l Hy Hl IH]; [reflexivity |].
  cbn [Js.insert].
  destruct (getTime (timestamp x)) as [tx|] eqn:Ex; [| contradiction].
  destruct (getTime (timestamp y)) as [ty|] eqn:Ey; [| contradiction].
  rewrite (sortCompare_dated x y tx ty Ex Ey).
  destruct (ty - tx <=? 0)%Z eqn:E; [reflexivity |].
  apply Z.leb_gt in E. cbn [filter]. rewrite IH. cbn [filter].
  assert (Sx : sameInstant x = (tx =? t)%Z)
    by (unfold sameInstant; now rewrite Ex).
  assert (Sy : sameInstant y = (ty =? t)%Z)
    by (unfold sameInstant; now rewrite Ey).
  rewrite Sx, Sy.
  destruct (ty =? t)%Z eqn:E1, (tx =? t)%Z eqn:E2; try reflexivity.
  apply Z.eqb_eq in E1, E2. lia.
Qed.

Lemma sort_stable (t : Z) (l : list Memory) :
  datedAll getTime l ->
  let sameInstant m :=
    match getTime (timestamp m) with
    | Some tm => (tm =? t)%Z
    | None => false
    end in
  filter sameInstant (Js.sort cmp l) = filter sameInstant l.
Proof.
  intros Hl sameInstant. induction Hl as [|x l Hx Hl IH]; [reflexivity |].
  unfold Js.sort in *. cbn [fold_right].
  fold cmp. rewrite (insert_stable t); [| assumption |].
  - cbn [filter]. fold sameInstant. now rewrite IH.
  - unfold datedAll. rewrite Forall_forall in *. intros z Hz.
    apply Hl. exact (Permutation_in _ (sort_perm l) Hz).
Qed.

End Sorting.

Lemma StronglySorted_firstn {A : Type} (R : A -> A -> Prop) (n : nat)
  (l : list A) :
  StronglySorted R l -> StronglySorted R (firstn n l).
Proof.
  intros H. revert n. induction H as [|x l Hs IH Hx]; intros [|n]; simpl;
    try constructor; auto.
  rewrite Forall_forall in *. intros y Hy. apply Hx.
  rewrite <- (firstn_skipn n l). apply in_or_app. now left.
Qed.

(* ================================================================== *)
(** ** The query stage and the filters *)
(* ================================================================== *)

Lemma queryMatches_spec (q : string) (m : Memory) :
  queryMatches (Js.toLowerCase q) m = true <->
  (containsIgnoringCase (content m) q \/
   containsIgnoringCase (context m) q \/
   exists tag, In tag (tags m) /\ containsIgnoringCase tag q).
Proof.
  unfold queryMatches.
  rewrite !orb_true_iff, !includes_toLowerCase, existsb_exists.
  split.
  - intros [[H | H] | [tag [Ht H]]]; auto.
    right; right. exists tag. now rewrite <- includes_toLowerCase.
  - intros [H | [H | [tag [Ht H]]]]; auto.
    right. exists tag. now rewrite includes_toLowerCase.
Qed.

Lemma containsIgnoringCase_empty (s : string) : containsIgnoringCase s "".
Proof. exists "", "", s. split; [reflexivity | constructor]. Qed.

(** The guard [if (args.query)] of the handlers changes nothing: without
    a query [searchMemories] returns its input. *)
Lemma search_guard (memories : list Memory) (query : option string) :
  (if Js.truthy query then searchMemories memories query else memories)
  = searchMemories memories query.
Proof.
  destruct query as [q|]; simpl; [| reflexivity].
  unfold searchMemories. now destruct (String.eqb q "").
Qed.

(** C5.  With a query supplied, the query stage of a search keeps a
    record exactly when its content, its context or one of its tags
    contains the query as a substring, case ignored; the stage of
    [handleRecall] is [searchMemories]; and the query [typescript] keeps a
    record whose content is [User prefers TypeScript]. *)
Theorem search_keeps_matches_ignoring_case :
  (forall (memories : list Memory) (q : string) (m : Memory),
      In m (searchMemories memories (Some q)) <->
      In m memories /\
      (containsIgnoringCase (content m) q \/
       containsIgnoringCase (context m) q \/
       exists tag, In tag (tags m) /\ containsIgnoringCase tag q)) /\
  (forall (memories : list Memory) (q : string),
      (if Js.truthy (Some q) then searchMemories memories (Some q)
       else memories) = searchMemories memories (Some q)) /\
  (forall (memories : list Memory) (m : Memory),
      In m memories -> content m = "User prefers TypeScript" ->
      In m (searchMemories memories (Some "typescript"))).
Proof.
  assert (main : forall memories q m,
    In m (searchMemories memories (Some q)) <->
    In m memories /\
    (containsIgnoringCase (content m) q \/
     containsIgnoringCase (context m) q \/
     exists tag, In tag (tags m) /\ containsIgnoringCase tag q)).
  { intros memories q m. unfold searchMemories.
    destruct (String.eqb q "") eqn:E.
    - apply String.eqb_eq in E. subst q. split.
      + intros H. split; [assumption |]. left. apply containsIgnoringCase_empty.
      + now intros [H _].
    - rewrite filter_In, queryMatches_spec. reflexivity. }
  split; [exact main |]. split.
  - intros memories q. apply search_guard.
  - intros memories m Hm Hc. apply main. split; [assumption |]. left.
    rewrite Hc. apply includes_toLowerCase. reflexivity.
Qed.

Lemma tagsReject_spec (filters : Filters.t) (wanted : list string)
  (m : Memory) :
  Filters.tags filters = Some wanted ->
  (tagsReject filters m = false <-> hasOneOf wanted m).
Proof.
  intros H. unfold tagsReject, hasOneOf. rewrite H, negb_false_iff,
    existsb_exists.
  split; intros [tag [H1 H2]]; exists tag; split; try assumption;
    now apply arrayIncludes_In.
Qed.

Lemma passesFilters_tags_only (wanted : list string) (m : Memory) :
  passesFilters {| Filters.tags := Some wanted; Filters.session_id := None;
                   Filters.importance := None; Filters.type := None |} m
  = negb (tagsReject {| Filters.tags := Some wanted;
                        Filters.session_id := None;
                        Filters.importance := None;
                        Filters.type := None |} m).
Proof.
  unfold passesFilters.
  now destruct (tagsReject _ m).
Qed.

(** C7.  With a tags filter supplied, a record gets past the tag guard of
    [filterMemories] exactly when it has one of the requested tags; a
    record that passes all the filters has one of them; filtering by tags
    alone returns exactly the records that have one; and a record tagged
    [a], [b] is returned when the filter asks for [b], [z]. *)
Theorem tag_filter_matches_any :
  (forall (wanted : list string) (s : option string)
          (i : option Importance) (t : option MemoryType) (m : Memory),
      let filters := {| Filters.tags := Some wanted; Filters.session_id := s;
                        Filters.importance := i; Filters.type := t |} in
      (tagsReject filters m = false <-> hasOneOf wanted m) /\
      (passesFilters filters m = true -> hasOneOf wanted m)) /\
  (forall (wanted : list string) (memories : list Memory) (m : Memory),
      In m (filterMemories memories
              {| Filters.tags := Some wanted; Filters.session_id := None;
                 Filters.importance := None; Filters.type := None |}) <->
      In m memories /\ hasOneOf wanted m) /\
  (forall (memories : list Memory) (m : Memory),
      In m memories -> tags m = ["a"; "b"] ->
      In m (filterMemories memories
              {| Filters.tags := Some ["b"; "z"]; Filters.session_id := None;
                 Filters.importance := None; Filters.type := None |})).
Proof.
  assert (guard : forall wanted s i t m,
    tagsReject {| Filters.tags := Some wanted; Filters.session_id := s;
                  Filters.importance := i; Filters.type := t |} m = false
    <-> hasOneOf wanted m).
  { intros. now apply tagsReject_spec. }
  assert (only : forall wanted memories m,
    In m (filterMemories memories
            {| Filters.tags := Some wanted; Filters.session_id := None;
               Filters.importance := None; Filters.type := None |}) <->
    In m memories /\ hasOneOf wanted m).
  { intros. unfold filterMemories.
    rewrite filter_In, passesFilters_tags_only, negb_true_iff, guard.
    reflexivity. }
  split; [| split].
  - intros wanted s i t m filters. split; [apply guard |].
    unfold passesFilters. destruct (tagsReject filters m) eqn:E;
      [discriminate |]. intros _. now apply guard in E.
  - exact only.
  - intros memories m Hm Ht. apply only. split; [assumption |].
    exists "b". rewrite Ht. simpl. tauto.
Qed.

(* ================================================================== *)
(** ** Erase *)
(* ================================================================== *)

Lemma eraseSelection_filter (args : EraseArgs.t) (memories : list Memory) :
  eraseSelection args memories = filter (eraseTest args) memories.
Proof.
  unfold eraseSelection, filterMemories, eraseTest.
  rewrite search_guard. unfold searchMemories.
  destruct (EraseArgs.query args) as [q|].
  - destruct (String.eqb q ""); simpl; [reflexivity | apply filter_filter].
  - reflexivity.
Qed.

Lemma loadMemories_stored (o : Oracle) (f : File) :
  exists storage,
    loadMemories o f = (Ok storage, f) /\ memories storage = stored f.
Proof.
  destruct f as [| | storage]; simpl; eauto.
Qed.

(** With distinct ids, a record of the collection has the id of a selected
    record only when it is selected itself. *)
Lemma includes_selected_ids (p : Memory -> bool) (l : list Memory)
  (m : Memory) :
  NoDup (map id l) -> In m l ->
  Js.arrayIncludes (map id (filter p l)) (id m) = p m.
Proof.
  intros Hnd Hm. destruct (p m) eqn:E.
  - apply arrayIncludes_In. apply in_map. apply filter_In. now split.
  - apply not_true_is_false. intros H. apply arrayIncludes_In in H.
    apply in_map_iff in H as [m' [Hid Hm']].
    apply filter_In in Hm' as [Hm' Hp].
    assert (m' = m); [| congruence].
    clear Hp E. induction l as [|x l IH]; [contradiction |].
    simpl in Hnd. inversion Hnd as [|? ? Hx Hl]; subst.
    destruct Hm as [-> | Hm], Hm' as [-> | Hm'].
    + reflexivity.
    + exfalso. apply Hx. rewrite <- Hid. now apply in_map.
    + exfalso. apply Hx. rewrite Hid. now apply in_map.
    + now apply IH.
Qed.

Lemma filter_ext_in' {A : Type} (p q : A -> bool) (l : list A) :
  (forall x, In x l -> p x = q x) -> filter p l = filter q l.
Proof.
  induction l as [|x l IH]; simpl; intros H; [reflexivity |].
  rewrite (H x) by now left. rewrite IH; [reflexivity |].
  intros y Hy. apply H. now right.
Qed.

(** What a confirmed bulk erase leaves, when ids are distinct: the records
    that the selection does not choose. *)
Lemma bulk_erase_remainder (args : EraseArgs.t) (l : list Memory) :
  NoDup (map id l) ->
  filter (fun m => negb (Js.arrayIncludes (map id (eraseSelection args l))
                                          (id m))) l
  = filter (fun m => negb (eraseTest args m)) l.
Proof.
  intros Hnd. apply filter_ext_in'. intros m Hm.
  rewrite eraseSelection_filter. f_equal.
  now apply includes_selected_ids.
Qed.

(** C1.  A bulk erase (no id) without confirmation leaves the file as it
    was and returns a preview; when the ids of the store are distinct, a
    following call with the same query, tags and session and with
    [confirm = true] reports as many deletions as the preview has records
    and removes exactly that many records from the file. *)
Theorem bulk_preview_counts_what_confirm_removes
  (o o' : Oracle) (query : option string) (tags : option (list string))
  (session : option string) (confirm : option bool) (file : File) :
  confirm = None \/ confirm = Some false ->
  NoDup (map id (stored file)) ->
  let ask := {| EraseArgs.id := None; EraseArgs.query := query;
                EraseArgs.tags := tags; EraseArgs.session_id := session;
                EraseArgs.confirm := confirm |} in
  let go := {| EraseArgs.id := None; EraseArgs.query := query;
               EraseArgs.tags := tags; EraseArgs.session_id := session;
               EraseArgs.confirm := Some true |} in
  exists preview,
    handleErase o ask file = (Ok (Preview preview), file) /\
    fst (handleErase o' go file) = Ok (DeletedBulk (List.length preview)) /\
    List.length (stored (snd (handleErase o' go file))) + List.length preview
    = List.length (stored file).
Proof.
  intros Hc Hnd ask go.
  exists (eraseSelection ask (stored file)).
  destruct (loadMemories_stored o file) as [st [Hl Hm]].
  destruct (loadMemories_stored o' file) as [st' [Hl' Hm']].
  assert (Hsel : eraseSelection go (stored file)
                 = eraseSelection ask (stored file)) by reflexivity.
  split; [| split].
  - unfold handleErase, bind. rewrite Hl. cbn [Js.truthy ask EraseArgs.id].
    replace (negb match EraseArgs.confirm ask with
                  | Some b => b | None => false end) with true
      by (destruct Hc as [-> | ->]; reflexivity).
    unfold ret. now rewrite Hm.
  - unfold handleErase, bind. rewrite Hl'. cbn -[eraseSelection].
    rewrite Hm', length_map. now rewrite Hsel.
  - unfold handleErase, bind. rewrite Hl'. cbn -[eraseSelection].
    rewrite Hm'.
    rewrite (bulk_erase_remainder go) by assumption.
    rewrite <- Hsel, eraseSelection_filter. apply filter_split_length.
Qed.

(** C2.  A bulk erase with no id, no query, no tags, no session and
    [confirm = true] selects every record, reports that many deletions and
    writes a document whose [memories] is empty. *)
Theorem bulk_erase_without_filters_empties_store (o : Oracle) (file : File) :
  let go := {| EraseArgs.id := None; EraseArgs.query := None;
               EraseArgs.tags := None; EraseArgs.session_id := None;
               EraseArgs.confirm := Some true |} in
  eraseSelection go (stored file) = stored file /\
  fst (handleErase o go file) = Ok (DeletedBulk (List.length (stored file))) /\
  exists storage,
    snd (handleErase o go file) = Document storage /\
    memories storage = [] /\
    last_updated storage = saveTime o.
Proof.
  intros go.
  assert (Hsel : forall l, eraseSelection go l = l).
  { intros l. rewrite eraseSelection_filter. now apply filter_all. }
  destruct (loadMemories_stored o file) as [st [Hl Hm]].
  split; [apply Hsel |].
  unfold handleErase, bind. rewrite Hl. cbn -[eraseSelection].
  rewrite Hm, Hsel, length_map.
  split; [reflexivity |]. eexists. split; [reflexivity |].
  split; [| reflexivity]. cbn. apply filter_none.
  intros x Hx. apply negb_false_iff. apply arrayIncludes_In. now apply in_map.
Qed.

Lemma filter_length_all {A : Type} (p : A -> bool) (l : list A) :
  List.length (filter p l) = List.length l <-> forall x, In x l -> p x = true.
Proof.
  split.
  - intros H x Hx. destruct (p x) eqn:E; [reflexivity | exfalso].
    pose proof (filter_split_length p l) as Hs.
    assert (Hin : In x (filter (fun y => negb (p y)) l))
      by (apply filter_In; split; [assumption | now rewrite E]).
    destruct (filter (fun y => negb (p y)) l); [contradiction |].
    simpl in Hs. lia.
  - intros H. now rewrite filter_all.
Qed.

(** The path of [handleErase] for a call with an id. *)
Lemma handleErase_by_id (o : Oracle) (args : EraseArgs.t) (file : File)
  (i : string) (st : MemoryStorage) :
  EraseArgs.id args = Some i -> i <> "" ->
  loadMemories o file = (Ok st, file) ->
  handleErase o args file =
  let rest := filter (fun m => negb (String.eqb (id m) i)) (memories st) in
  if (List.length rest =? List.length (memories st))%nat
  then (Throw (notFound i), file)
  else (Ok (Deleted i),
        Document {| memories := rest; version := version st;
                    last_updated := saveTime o |}).
Proof.
  intros Hi Hne Hl. unfold handleErase, bind. rewrite Hl, Hi.
  apply String.eqb_neq in Hne. cbn [Js.truthy]. rewrite Hne. cbn [negb].
  cbn [memories]. cbv zeta.
  destruct (_ =? _)%nat; reflexivity.
Qed.

(** C6.  An erase by id (a non-empty id) whose id no record has throws
    the not-found error and leaves the file as it was; when exactly one
    record has the id, the call answers with the deletion and writes a
    document without that record, the others kept in their order. *)
Theorem erase_by_id_not_found_or_removed
  (o : Oracle) (args : EraseArgs.t) (file : File) (i : string) :
  EraseArgs.id args = Some i -> i <> "" ->
  ((forall m, In m (stored file) -> id m <> i) ->
   handleErase o args file = (Throw (notFound i), file)) /\
  (forall l1 m l2,
      stored file = l1 ++ m :: l2 -> id m = i ->
      (forall x, In x (l1 ++ l2) -> id x <> i) ->
      fst (handleErase o args file) = Ok (Deleted i) /\
      exists storage,
        snd (handleErase o args file) = Document storage /\
        memories storage = l1 ++ l2 /\
        last_updated storage = saveTime o).
Proof.
  intros Hi Hne.
  destruct (loadMemories_stored o file) as [st [Hl Hm]].
  rewrite (handleErase_by_id o args file i st Hi Hne Hl). cbv zeta.
  rewrite Hm. split.
  - intros Habs.
    rewrite filter_all, Nat.eqb_refl; [reflexivity |].
    intros x Hx. apply negb_true_iff, String.eqb_neq. now apply Habs.
  - intros l1 m l2 Hs Hid Hothers.
    assert (Hf : filter (fun m0 => negb (String.eqb (id m0) i)) (stored file)
                 = l1 ++ l2).
    { rewrite Hs, filter_app. cbn [filter].
      rewrite Hid, String.eqb_refl. cbn [negb].
      rewrite !filter_all; [reflexivity | |];
        intros x Hx; apply negb_true_iff, String.eqb_neq, Hothers,
          in_or_app; auto. }
    rewrite Hf, Hs.
    replace (List.length (l1 ++ l2) =? List.length (l1 ++ m :: l2))%nat
      with false.
    + split; [reflexivity |]. eexists. split; [reflexivity |]. now split.
    + symmetry. apply Nat.eqb_neq. rewrite !length_app. simpl. lia.
Qed.

(** C10.  An erase call with a non-empty id takes the path of the erase
    by id whatever else it carries: it behaves as the call that carries
    the id alone, so the query, tags, session and confirm arguments have
    no effect.  When no record has the id it throws the not-found error
    and leaves the file as it was; when a record has the id it answers
    with the deletion and writes the collection without the records of
    that id, also when [confirm] is absent or false. *)
Theorem erase_with_id_ignores_other_arguments
  (o : Oracle) (args : EraseArgs.t) (file : File) (i : string) :
  EraseArgs.id args = Some i -> i <> "" ->
  handleErase o args file =
  handleErase o {| EraseArgs.id := Some i; EraseArgs.query := None;
                   EraseArgs.tags := None; EraseArgs.session_id := None;
                   EraseArgs.confirm := None |} file /\
  ((forall m, In m (stored file) -> id m <> i) ->
   handleErase o args file = (Throw (notFound i), file)) /\
  ((exists m, In m (stored file) /\ id m = i) ->
   fst (handleErase o args file) = Ok (Deleted i) /\
   exists storage,
     snd (handleErase o args file) = Document storage /\
     memories storage
     = filter (fun m => negb (String.eqb (id m) i)) (stored file) /\
     last_updated storage = saveTime o).
Proof.
  intros Hi Hne.
  destruct (loadMemories_stored o file) as [st [Hl Hm]].
  rewrite (handleErase_by_id o args file i st Hi Hne Hl).
  split; [symmetry; now apply handleErase_by_id |]. cbv zeta. rewrite Hm.
  split.
  - intros Habs. rewrite filter_all, Nat.eqb_refl; [reflexivity |].
    intros x Hx. apply negb_true_iff, String.eqb_neq. now apply Habs.
  - intros [m [Hin Hid]].
    destruct (_ =? _)%nat eqn:E.
    + exfalso. apply Nat.eqb_eq in E.
      pose proof (proj1 (filter_length_all _ _) E m Hin) as Hkeep.
      apply negb_true_iff, String.eqb_neq in Hkeep. contradiction.
    + split; [reflexivity |]. eexists. split; [reflexivity |].
      split; reflexivity.
Qed.

(* ================================================================== *)
(** ** Recall *)
(* ================================================================== *)

Lemma handleRecall_run (getTime : string -> option Z) (o : Oracle)
  (args : RecallArgs.t) (file : File) :
  handleRecall getTime o args file =
  (Ok (Recalled
         (Js.slice0
            (Js.sort (byTimestampDesc getTime)
                     (recallSelection args (stored file)))
            (match RecallArgs.limit args with
             | Some n => if (n =? 0)%Z then 10%Z else n
             | None => 10%Z
             end))), file).
Proof.
  destruct (loadMemories_stored o file) as [st [Hl Hm]].
  unfold handleRecall, bind. rewrite Hl. unfold ret, recallSelection.
  now rewrite Hm.
Qed.

Lemma filterMemories_no_tags (memories : list Memory) (s : option string)
  (i : option Importance) (t : option MemoryType) :
  filterMemories memories
    {| Filters.tags := Some []; Filters.session_id := s;
       Filters.importance := i; Filters.type := t |} = [].
Proof.
  unfold filterMemories. apply filter_none. reflexivity.
Qed.

(** C9.  With the tags filter present and empty, the tag guard rejects
    every record: a recall returns no record, and a confirmed bulk erase
    reports zero deletions and writes back the records it read. *)
Theorem empty_tags_filter_matches_nothing :
  (forall (getTime : string -> option Z) (o : Oracle) (file : File)
          (q s : option string) (i : option Importance)
          (t : option MemoryType) (n : option Z),
      handleRecall getTime o
        {| RecallArgs.query := q; RecallArgs.tags := Some [];
           RecallArgs.session_id := s; RecallArgs.importance := i;
           RecallArgs.type := t; RecallArgs.limit := n |} file
      = (Ok (Recalled []), file)) /\
  (forall (o : Oracle) (file : File) (q s : option string),
      let go := {| EraseArgs.id := None; EraseArgs.query := q;
                   EraseArgs.tags := Some []; EraseArgs.session_id := s;
                   EraseArgs.confirm := Some true |} in
      fst (handleErase o go file) = Ok (DeletedBulk 0) /\
      stored (snd (handleErase o go file)) = stored file).
Proof.
  split.
  - intros. rewrite handleRecall_run. unfold recallSelection.
    cbn [RecallArgs.tags RecallArgs.session_id RecallArgs.importance
         RecallArgs.type].
    rewrite filterMemories_no_tags. cbn [Js.sort fold_right].
    unfold Js.slice0. destruct (_ <? 0)%Z; now rewrite firstn_nil.
  - intros o file q s go.
    destruct (loadMemories_stored o file) as [st [Hl Hm]].
    assert (Hsel : eraseSelection go (memories st) = []).
    { unfold eraseSelection. apply filterMemories_no_tags. }
    unfold handleErase, bind. rewrite Hl. cbn -[eraseSelection].
    rewrite Hsel. cbn. split; [reflexivity |].
    rewrite <- Hm. now apply filter_all.
Qed.

Lemma recallSelection_incl (args : RecallArgs.t) (memories : list Memory)
  (m : Memory) :
  In m (recallSelection args memories) -> In m memories.
Proof.
  unfold recallSelection, filterMemories. rewrite search_guard.
  intros H. apply filter_In in H as [H _]. unfold searchMemories in H.
  destruct (RecallArgs.query args) as [q|]; [| assumption].
  destruct (String.eqb q ""); [assumption |].
  now apply filter_In in H as [H _].
Qed.

(** C3.  On a store whose timestamps are dates, and for a limit between 1
    and 100 (10 when none is supplied), a recall returns the first [limit]
    records of the selected records put most recent first: the result is
    sorted by timestamp descending and has at most [limit] records; with
    limit 1 and two selected records it is the more recent one alone. *)
Theorem recall_sorts_newest_first_and_truncates
  (getTime : string -> option Z) (o : Oracle) (args : RecallArgs.t)
  (file : File) :
  datedAll getTime (stored file) ->
  (1 <= requestedLimit args <= 100)%Z ->
  exists found ordered,
    handleRecall getTime o args file = (Ok (Recalled found), file) /\
    Permutation ordered (recallSelection args (stored file)) /\
    StronglySorted (newerFirst getTime) ordered /\
    found = firstn (Z.to_nat (requestedLimit args)) ordered /\
    StronglySorted (newerFirst getTime) found /\
    (List.length found <= Z.to_nat (requestedLimit args))%nat /\
    (forall a b ta tb,
        Permutation [a; b] (recallSelection args (stored file)) ->
        getTime (timestamp a) = Some ta ->
        getTime (timestamp b) = Some tb ->
        (ta < tb)%Z ->
        requestedLimit args = 1%Z ->
        found = [b]).
Proof.
  intros Hd Hlim.
  set (sel := recallSelection args (stored file)).
  set (ordered := Js.sort (byTimestampDesc getTime) sel).
  assert (Hdsel : datedAll getTime sel).
  { unfold datedAll in *. rewrite Forall_forall in *. intros m Hm.
    apply Hd. now apply recallSelection_incl in Hm. }
  assert (Hsorted : StronglySorted (newerFirst getTime) ordered)
    by now apply sort_sorted.
  assert (Hrun : handleRecall getTime o args file
                 = (Ok (Recalled (firstn (Z.to_nat (requestedLimit args))
                                         ordered)), file)).
  { rewrite handleRecall_run. fold sel. fold ordered.
    unfold requestedLimit in *.
    destruct (RecallArgs.limit args) as [n|].
    - destruct (n =? 0)%Z eqn:E; [apply Z.eqb_eq in E; lia |].
      unfold Js.slice0. destruct (n <? 0)%Z eqn:E'; [| reflexivity].
      apply Z.ltb_lt in E'. lia.
    - reflexivity. }
  exists (firstn (Z.to_nat (requestedLimit args)) ordered), ordered.
  split; [exact Hrun |].
  split; [apply sort_perm |].
  split; [exact Hsorted |].
  split; [reflexivity |].
  split; [now apply StronglySorted_firstn |].
  split; [apply firstn_le_length |].
  intros a b ta tb Hp Ha Hb Hlt H1. rewrite H1.
  assert (Hcmp_ab : Js.sortCompare (byTimestampDesc getTime) a b
                    = (tb - ta)%Z) by now apply sortCompare_dated.
  assert (Hcmp_ba : Js.sortCompare (byTimestampDesc getTime) b a
                    = (ta - tb)%Z) by now apply sortCompare_dated.
  assert (Hord : ordered = [b; a]).
  { unfold ordered. fold sel in Hp.
    apply Permutation_length_2_inv in Hp as [-> | ->];
      cbn [Js.sort fold_right Js.insert].
    - rewrite Hcmp_ab.
      destruct (tb - ta <=? 0)%Z eqn:E; [apply Z.leb_le in E; lia |].
      reflexivity.
    - rewrite Hcmp_ba.
      destruct (ta - tb <=? 0)%Z eqn:E; [reflexivity |].
      apply Z.leb_gt in E. lia. }
  rewrite Hord. reflexivity.
Qed.

(* ================================================================== *)
(** ** Modify *)
(* ================================================================== *)

(** C4.  A modify call whose id no record has throws the not-found error
    and leaves the file as it was.  Otherwise the first record with the id
    is replaced in its place by a record that takes each supplied field
    from the call and every other field, with id, timestamp and session,
    from the record as it was; the records around it are kept, and the
    reply carries the record before and after. *)
Theorem modify_replaces_supplied_fields_only
  (o : Oracle) (args : ModifyArgs.t) (file : File) :
  ((forall m, In m (stored file) -> id m <> ModifyArgs.id args) ->
   handleModify o args file = (Throw (notFound (ModifyArgs.id args)), file)) /\
  (forall l1 m l2,
      stored file = l1 ++ m :: l2 ->
      id m = ModifyArgs.id args ->
      (forall x, In x l1 -> id x <> ModifyArgs.id args) ->
      exists m' storage,
        handleModify o args file
        = (Ok (Modified (ModifyArgs.id args) m m'), Document storage) /\
        memories storage = l1 ++ m' :: l2 /\
        id m' = id m /\
        timestamp m' = timestamp m /\
        session_id m' = session_id m /\
        content m' = match ModifyArgs.content args with
                     | Some c => c
                     | None => content m
                     end /\
        tags m' = match ModifyArgs.tags args with
                  | Some ts => ts
                  | None => tags m
                  end /\
        context m' = match ModifyArgs.context args with
                     | Some c => c
                     | None => context m
                     end /\
        importance m' = match ModifyArgs.importance args with
                        | Some i => i
                        | None => importance m
                        end /\
        type m' = match ModifyArgs.type args with
                  | Some t => t
                  | None => type m
                  end).
Proof.
  destruct (loadMemories_stored o file) as [st [Hl Hm]].
  split.
  - intros Habs. unfold handleModify, bind. rewrite Hl, Hm.
    replace (Js.findIndex _ (stored file)) with (@None nat); [reflexivity |].
    symmetry. apply findIndex_none. intros x Hx.
    apply String.eqb_neq. now apply Habs.
  - intros l1 m l2 Hs Hid Hbefore.
    exists (applyModify args m).
    exists {| memories := l1 ++ applyModify args m :: l2;
              version := version st; last_updated := saveTime o |}.
    split; [| repeat split].
    unfold handleModify, bind. rewrite Hl, Hm, Hs.
    rewrite findIndex_first.
    + rewrite nth_error_middle. cbn. now rewrite setAt_middle.
    + intros y Hy. apply String.eqb_neq. now apply Hbefore.
    + apply String.eqb_eq. exact Hid.
Qed.

(* ================================================================== *)
(** ** Loading *)
(* ================================================================== *)

(** C8.  When the file is missing or is not JSON, [loadMemories] returns
    the empty store and throws nothing, and every tool call answers as it
    answers on a file that holds the empty store: the same reply or
    error, and a file either written as there or left as it was. *)
Theorem failed_load_is_an_empty_store
  (getTime : string -> option Z) (o : Oracle) (request : Request)
  (file : File) :
  file = Missing \/ file = Unparseable ->
  let empty := {| memories := []; version := "1.0.0";
                  last_updated := loadTime o |} in
  loadMemories o file = (Ok empty, file) /\
  fst (callTool getTime o request file)
  = fst (callTool getTime o request (Document empty)) /\
  (snd (callTool getTime o request file) = file \/
   snd (callTool getTime o request file)
   = snd (callTool getTime o request (Document empty))).
Proof.
  intros Hf empty.
  assert (Hload : loadMemories o file = (Ok empty, file))
    by (destruct Hf as [-> | ->]; reflexivity).
  split; [exact Hload |].
  destruct request as [a | a | a | a | name].
  - unfold callTool, handleReflect, bind. rewrite Hload. cbn. auto.
  - unfold callTool. rewrite !handleRecall_run.
    replace (stored file) with (@nil Memory)
      by (destruct Hf as [-> | ->]; reflexivity).
    cbn [stored memories empty fst snd]. auto.
  - unfold callTool, handleModify, bind. rewrite Hload. cbn. auto.
  - unfold callTool, handleErase, bind. rewrite Hload. cbn.
    destruct (Js.truthy (EraseArgs.id a)); cbn; [auto |].
    destruct (EraseArgs.confirm a) as [[|]|]; cbn; auto.
  - unfold callTool, throw. cbn. auto.
Qed.

(* ================================================================== *)
(** ** The properties on the sample store *)
(* ================================================================== *)

Example recall_limit_one :
  handleRecall IsoDate.getTime Sample.oracle
    {| RecallArgs.query := Some "PREFERS"; RecallArgs.tags := None;
       RecallArgs.session_id := None; RecallArgs.importance := None;
       RecallArgs.type := None; RecallArgs.limit := Some 1%Z |}
    (Document Sample.storage)
  = (Ok (Recalled [Sample.dogs]), Document Sample.storage).
Proof. vm_compute. reflexivity. Qed.

Example recall_by_importance :
  handleRecall IsoDate.getTime Sample.oracle
    {| RecallArgs.query := Some "prefers"; RecallArgs.tags := None;
       RecallArgs.session_id := None; RecallArgs.importance := Some high;
       RecallArgs.type := None; RecallArgs.limit := None |}
    (Document Sample.storage)
  = (Ok (Recalled [Sample.typescript]), Document Sample.storage).
Proof. vm_compute. reflexivity. Qed.

Example reflect_then_recall :
  let args := {| ReflectArgs.content := "X prefers cats";
                 ReflectArgs.tags := Some ["pref"];
                 ReflectArgs.context := None;
                 ReflectArgs.session_id := None;
                 ReflectArgs.importance := Some high;
                 ReflectArgs.type := None |} in
  let all := {| RecallArgs.query := None; RecallArgs.tags := None;
                RecallArgs.session_id := None; RecallArgs.importance := None;
                RecallArgs.type := None; RecallArgs.limit := None |} in
  let cats := {| id := "m-3"; content := "X prefers cats"; tags := ["pref"];
                 context := ""; timestamp := "2024-06-01T08:00:00.001Z";
                 session_id := None; importance := high; type := other |} in
  fst (handleReflect Sample.oracle args (Document Sample.storage))
  = Ok (Stored cats) /\
  fst (handleRecall IsoDate.getTime Sample.oracle all
         (snd (handleReflect Sample.oracle args (Document Sample.storage))))
  = Ok (Recalled [cats; Sample.dogs; Sample.typescript]).
Proof. vm_compute. auto. Qed.

(** Distinct ids are needed for the removal count of a bulk erase: when
    two records share an id and one of them is selected, the preview shows
    one record, the confirmed call reports one deletion, and both records
    leave the file. *)
Remark bulk_erase_shared_id :
  let twin := {| id := "m-1"; content := "twin"; tags := [];
                 context := ""; timestamp := "2024-02-02T00:00:00.000Z";
                 session_id := None; importance := medium; type := other |} in
  let file := Document {| memories := [Sample.typescript; twin];
                          version := "1.0.0";
                          last_updated := "2024-02-02T00:00:00.000Z" |} in
  let args c := {| EraseArgs.id := None; EraseArgs.query := None;
                   EraseArgs.tags := Some ["a"];
                   EraseArgs.session_id := None; EraseArgs.confirm := c |} in
  handleErase Sample.oracle (args None) file
  = (Ok (Preview [Sample.typescript]), file) /\
  fst (handleErase Sample.oracle (args (Some true)) file)
  = Ok (DeletedBulk 1) /\
  stored (snd (handleErase Sample.oracle (args (Some true)) file)) = [].
Proof. vm_compute. auto. Qed.

Lemma bulk_preview_counts_witness :
  exists preview,
    handleErase Sample.oracle
      {| EraseArgs.id := None; EraseArgs.query := Some "prefers";
         EraseArgs.tags := None; EraseArgs.session_id := None;
         EraseArgs.confirm := None |} (Document Sample.storage)
    = (Ok (Preview preview), Document Sample.storage) /\
    fst (handleErase Sample.oracle
           {| EraseArgs.id := None; EraseArgs.query := Some "prefers";
              EraseArgs.tags := None; EraseArgs.session_id := None;
              EraseArgs.confirm := Some true |} (Document Sample.storage))
    = Ok (DeletedBulk (List.length preview)) /\
    List.length
      (stored (snd (handleErase Sample.oracle
           {| EraseArgs.id := None; EraseArgs.query := Some "prefers";
              EraseArgs.tags := None; EraseArgs.session_id := None;
              EraseArgs.confirm := Some true |} (Document Sample.storage))))
    + List.length preview
    = List.length (stored (Document Sample.storage)).
Proof.
  apply (bulk_preview_counts_what_confirm_removes Sample.oracle Sample.oracle
           (Some "prefers") None None None (Document Sample.storage)).
  - left. reflexivity.
  - simpl. repeat constructor; simpl; intuition discriminate.
Defined.

Lemma recall_sorts_witness :
  exists found ordered,
    handleRecall IsoDate.getTime Sample.oracle
      {| RecallArgs.query := Some "prefers"; RecallArgs.tags := None;
         RecallArgs.session_id := None; RecallArgs.importance := None;
         RecallArgs.type := None; RecallArgs.limit := Some 1%Z |}
      (Document Sample.storage)
    = (Ok (Recalled found), Document Sample.storage) /\
    Permutation ordered [Sample.typescript; Sample.dogs] /\
    StronglySorted (newerFirst IsoDate.getTime) ordered /\
    found = firstn 1 ordered /\
    found = [Sample.dogs].
Proof.
  destruct (recall_sorts_newest_first_and_truncates IsoDate.getTime
              Sample.oracle
              {| RecallArgs.query := Some "prefers"; RecallArgs.tags := None;
                 RecallArgs.session_id := None; RecallArgs.importance := None;
                 RecallArgs.type := None; RecallArgs.limit := Some 1%Z |}
              (Document Sample.storage))
    as [found [ordered [Hrun [Hperm [Hsorted [Hfirst [_ [_ Htwo]]]]]]]].
  - repeat constructor; vm_compute; discriminate.
  - vm_compute. split; discriminate.
  - exists found, ordered. repeat split; try assumption.
    apply (Htwo Sample.typescript Sample.dogs
             1704067200000%Z 1709634030400%Z);
      [reflexivity | reflexivity | reflexivity | reflexivity | reflexivity].
Defined.

Lemma modify_witness :
  handleModify Sample.oracle
    {| ModifyArgs.id := "m-9"; ModifyArgs.content := Some "changed";
       ModifyArgs.tags := None; ModifyArgs.context := None;
       ModifyArgs.importance := None; ModifyArgs.type := None |}
    (Document Sample.storage)
  = (Throw (notFound "m-9"), Document Sample.storage) /\
  exists m' storage,
    handleModify Sample.oracle
      {| ModifyArgs.id := "m-2"; ModifyArgs.content := Some "changed";
         ModifyArgs.tags := None; ModifyArgs.context := None;
         ModifyArgs.importance := Some high; ModifyArgs.type := None |}
      (Document Sample.storage)
    = (Ok (Modified "m-2" Sample.dogs m'), Document storage) /\
    memories storage = [Sample.typescript; m'] /\
    content m' = "changed" /\ importance m' = high /\
    tags m' = ["pref"] /\ timestamp m' = "2024-03-05T10:20:30.400Z" /\
    session_id m' = Some "s1" /\ id m' = "m-2".
Proof.
  split.
  - apply (proj1 (modify_replaces_supplied_fields_only Sample.oracle
             {| ModifyArgs.id := "m-9"; ModifyArgs.content := Some "changed";
                ModifyArgs.tags := None; ModifyArgs.context := None;
                ModifyArgs.importance := None; ModifyArgs.type := None |}
             (Document Sample.storage))).
    simpl. intros m [<- | [<- | []]]; discriminate.
  - destruct (proj2 (modify_replaces_supplied_fields_only Sample.oracle
             {| ModifyArgs.id := "m-2"; ModifyArgs.content := Some "changed";
                ModifyArgs.tags := None; ModifyArgs.context := None;
                ModifyArgs.importance := Some high; ModifyArgs.type := None |}
             (Document Sample.storage))
             [Sample.typescript] Sample.dogs [])
      as [m' [storage [Hrun [Hmem [Hid [Hts [Hs [Hc [Ht [_ [Hi _]]]]]]]]]]].
    + reflexivity.
    + reflexivity.
    + simpl. intros x [<- | []]. discriminate.
    + exists m', storage. repeat split; assumption.
Defined.

Lemma search_ignoring_case_witness :
  In Sample.typescript
     (searchMemories (memories Sample.storage) (Some "typescript")).
Proof.
  apply (proj2 (proj2 search_keeps_matches_ignoring_case)).
  - simpl. left. reflexivity.
  - reflexivity.
Defined.

Lemma erase_by_id_witness :
  handleErase Sample.oracle
    {| EraseArgs.id := Some "m-9"; EraseArgs.query := None;
       EraseArgs.tags := None; EraseArgs.session_id := None;
       EraseArgs.confirm := None |} (Document Sample.storage)
  = (Throw (notFound "m-9"), Document Sample.storage) /\
  fst (handleErase Sample.oracle
         {| EraseArgs.id := Some "m-1"; EraseArgs.query := None;
            EraseArgs.tags := None; EraseArgs.session_id := None;
            EraseArgs.confirm := None |} (Document Sample.storage))
  = Ok (Deleted "m-1") /\
  exists storage,
    snd (handleErase Sample.oracle
           {| EraseArgs.id := Some "m-1"; EraseArgs.query := None;
              EraseArgs.tags := None; EraseArgs.session_id := None;
              EraseArgs.confirm := None |} (Document Sample.storage))
    = Document storage /\
    memories storage = [Sample.dogs] /\
    last_updated storage = "2024-06-01T08:00:00.002Z".
Proof.
  split.
  - apply (proj1 (erase_by_id_not_found_or_removed Sample.oracle
             {| EraseArgs.id := Some "m-9"; EraseArgs.query := None;
                EraseArgs.tags := None; EraseArgs.session_id := None;
                EraseArgs.confirm := None |} (Document Sample.storage) "m-9"
             eq_refl ltac:(discriminate))).
    simpl. intros m [<- | [<- | []]]; discriminate.
  - apply (proj2 (erase_by_id_not_found_or_removed Sample.oracle
             {| EraseArgs.id := Some "m-1"; EraseArgs.query := None;
                EraseArgs.tags := None; EraseArgs.session_id := None;
                EraseArgs.confirm := None |} (Document Sample.storage) "m-1"
             eq_refl ltac:(discriminate)) [] Sample.typescript [Sample.dogs]).
    + reflexivity.
    + reflexivity.
    + simpl. intros x [<- | []]. discriminate.
Defined.

(** C6, at the empty id.  The id [''] is the id of no record of the
    sample store, yet an erase with that id does not throw the not-found
    error: it takes the bulk path.  Without [confirm] it answers with a
    preview of every record, and with [confirm = true] it removes the
    whole collection. *)
Lemma erase_with_empty_id_is_a_bulk_erase :
  (forall m, In m (stored Calls.file) -> id m <> "") /\
  handleErase Sample.oracle (Calls.eraseById "") Calls.file
  = (Ok (Preview [Sample.typescript; Sample.dogs]), Calls.file) /\
  fst (handleErase Sample.oracle (Calls.eraseById "") Calls.file)
  <> Throw (notFound "") /\
  fst (handleErase Sample.oracle
         {| EraseArgs.id := Some ""; EraseArgs.query := None;
            EraseArgs.tags := None; EraseArgs.session_id := None;
            EraseArgs.confirm := Some true |} Calls.file)
  = Ok (DeletedBulk 2) /\
  stored (snd (handleErase Sample.oracle
                 {| EraseArgs.id := Some ""; EraseArgs.query := None;
                    EraseArgs.tags := None; EraseArgs.session_id := None;
                    EraseArgs.confirm := Some true |} Calls.file))
  = [] /\
  stored Calls.file <> [].
Proof.
  split.
  - simpl. intros m [<- | [<- | []]]; discriminate.
  - split; [reflexivity |]. split; [discriminate |].
    split; [reflexivity |]. split; [reflexivity | discriminate].
Qed.

Lemma tag_filter_witness :
  In Sample.typescript
     (filterMemories (memories Sample.storage)
        {| Filters.tags := Some ["b"; "z"]; Filters.session_id := None;
           Filters.importance := None; Filters.type := None |}).
Proof.
  apply (proj2 (proj2 tag_filter_matches_any)).
  - simpl. left. reflexivity.
  - reflexivity.
Defined.

Lemma failed_load_witness :
  loadMemories Sample.oracle Unparseable
  = (Ok {| memories := []; version := "1.0.0";
           last_updated := "2024-06-01T08:00:00.000Z" |}, Unparseable) /\
  fst (callTool IsoDate.getTime Sample.oracle
         (modify {| ModifyArgs.id := "m-1"; ModifyArgs.content := None;
                    ModifyArgs.tags := None; ModifyArgs.context := None;
                    ModifyArgs.importance := None;
                    ModifyArgs.type := None |}) Unparseable)
  = fst (callTool IsoDate.getTime Sample.oracle
           (modify {| ModifyArgs.id := "m-1"; ModifyArgs.content := None;
                      ModifyArgs.tags := None; ModifyArgs.context := None;
                      ModifyArgs.importance := None;
                      ModifyArgs.type := None |})
           (Document {| memories := []; version := "1.0.0";
                        last_updated := "2024-06-01T08:00:00.000Z" |})) /\
  (snd (callTool IsoDate.getTime Sample.oracle
          (modify {| ModifyArgs.id := "m-1"; ModifyArgs.content := None;
                     ModifyArgs.tags := None; ModifyArgs.context := None;
                     ModifyArgs.importance := None;
                     ModifyArgs.type := None |}) Unparseable)
   = Unparseable \/
   snd (callTool IsoDate.getTime Sample.oracle
          (modify {| ModifyArgs.id := "m-1"; ModifyArgs.content := None;
                     ModifyArgs.tags := None; ModifyArgs.context := None;
                     ModifyArgs.importance := None;
                     ModifyArgs.type := None |}) Unparseable)
   = snd (callTool IsoDate.getTime Sample.oracle
            (modify {| ModifyArgs.id := "m-1"; ModifyArgs.content := None;
                       ModifyArgs.tags := None; ModifyArgs.context := None;
                       ModifyArgs.importance := None;
                       ModifyArgs.type := None |})
            (Document {| memories := []; version := "1.0.0";
                         last_updated := "2024-06-01T08:00:00.000Z" |}))).
Proof.
  apply (failed_load_is_an_empty_store IsoDate.getTime Sample.oracle
           (modify {| ModifyArgs.id := "m-1"; ModifyArgs.content := None;
                      ModifyArgs.tags := None; ModifyArgs.context := None;
                      ModifyArgs.importance := None;
                      ModifyArgs.type := None |}) Unparseable).
  right. reflexivity.
Defined.

Lemma erase_with_id_witness :
  handleErase Sample.oracle
    {| EraseArgs.id := Some "m-2"; EraseArgs.query := Some "typescript";
       EraseArgs.tags := Some []; EraseArgs.session_id := Some "none";
       EraseArgs.confirm := Some false |} (Document Sample.storage)
  = handleErase Sample.oracle
      {| EraseArgs.id := Some "m-2"; EraseArgs.query := None;
         EraseArgs.tags := None; EraseArgs.session_id := None;
         EraseArgs.confirm := None |} (Document Sample.storage) /\
  fst (handleErase Sample.oracle
         {| EraseArgs.id := Some "m-2"; EraseArgs.query := Some "typescript";
            EraseArgs.tags := Some []; EraseArgs.session_id := Some "none";
            EraseArgs.confirm := Some false |} (Document Sample.storage))
  = Ok (Deleted "m-2") /\
  (exists storage,
     snd (handleErase Sample.oracle
            {| EraseArgs.id := Some "m-2";
               EraseArgs.query := Some "typescript";
               EraseArgs.tags := Some []; EraseArgs.session_id := Some "none";
               EraseArgs.confirm := Some false |} (Document Sample.storage))
     = Document storage /\
     memories storage = [Sample.typescript]) /\
  handleErase Sample.oracle
    {| EraseArgs.id := Some "m-9"; EraseArgs.query := Some "prefers";
       EraseArgs.tags := None; EraseArgs.session_id := None;
       EraseArgs.confirm := Some true |} (Document Sample.storage)
  = (Throw (notFound "m-9"), Document Sample.storage).
Proof.
  destruct (erase_with_id_ignores_other_arguments Sample.oracle
              {| EraseArgs.id := Some "m-2";
                 EraseArgs.query := Some "typescript";
                 EraseArgs.tags := Some [];
                 EraseArgs.session_id := Some "none";
                 EraseArgs.confirm := Some false |} (Document Sample.storage)
              "m-2" eq_refl ltac:(discriminate))
    as [Hsame [_ Hpresent]].
  destruct Hpresent as [Hreply [storage [Hfile [Hrest _]]]].
  { exists Sample.dogs. split; [simpl; auto | reflexivity]. }
  split; [exact Hsame |]. split; [exact Hreply |]. split.
  - exists storage. split; [exact Hfile | exact Hrest].
  - apply (proj1 (proj2 (erase_with_id_ignores_other_arguments Sample.oracle
             {| EraseArgs.id := Some "m-9"; EraseArgs.query := Some "prefers";
                EraseArgs.tags := None; EraseArgs.session_id := None;
                EraseArgs.confirm := Some true |} (Document Sample.storage)
             "m-9" eq_refl ltac:(discriminate)))).
    simpl. intros m [<- | [<- | []]]; discriminate.
Defined.

(* ================================================================== *)
(** ** How each handler runs *)
(* ================================================================== *)

Lemma loadMemories_loaded (o : Oracle) (f : File) :
  loadMemories o f = (Ok (loaded o f), f).
Proof. destruct f; reflexivity. Qed.

Lemma loaded_memories (o : Oracle) (f : File) :
  memories (loaded o f) = stored f.
Proof. destruct f; reflexivity. Qed.

Lemma handleReflect_run (o : Oracle) (args : ReflectArgs.t) (file : File) :
  exists m,
    handleReflect o args file
    = (Ok (Stored m),
       Document {| memories := stored file ++ [m];
                   version := version (loaded o file);
                   last_updated := saveTime o |}) /\
    id m = uuid o /\
    content m = ReflectArgs.content args /\
    timestamp m = reflectTime o /\
    session_id m = ReflectArgs.session_id args /\
    tags m = match ReflectArgs.tags args with Some ts => ts | None => [] end /\
    context m = match ReflectArgs.context args with
                | Some c => c
                | None => ""
                end /\
    importance m = match ReflectArgs.importance args with
                   | Some i => i
                   | None => medium
                   end /\
    type m = match ReflectArgs.type args with
             | Some t => t
             | None => other
             end.
Proof.
  eexists. split.
  - unfold handleReflect, bind. rewrite loadMemories_loaded. cbn.
    rewrite loaded_memories. reflexivity.
  - cbn. repeat split.
Qed.

Lemma handleModify_run (o : Oracle) (args : ModifyArgs.t) (file : File) :
  handleModify o args file =
  match Js.findIndex (fun m => String.eqb (id m) (ModifyArgs.id args))
                     (stored file) with
  | None => (Throw (notFound (ModifyArgs.id args)), file)
  | Some i =>
      match nth_error (stored file) i with
      | None => (Throw (OtherError "Cannot set properties of undefined"), file)
      | Some m =>
          (Ok (Modified (ModifyArgs.id args) m (applyModify args m)),
           Document {| memories := Js.setAt i (applyModify args m)
                                            (stored file);
                       version := version (loaded o file);
                       last_updated := saveTime o |})
      end
  end.
Proof.
  unfold handleModify, bind. rewrite loadMemories_loaded, loaded_memories.
  destruct (Js.findIndex _ _) as [i|]; [| reflexivity].
  destruct (nth_error _ i); reflexivity.
Qed.

Lemma handleErase_run (o : Oracle) (args : EraseArgs.t) (file : File) :
  handleErase o args file =
  if Js.truthy (EraseArgs.id args) then
    let i := match EraseArgs.id args with Some i => i | None => "" end in
    let rest := filter (fun m => negb (String.eqb (id m) i)) (stored file) in
    if (List.length rest =? List.length (stored file))%nat
    then (Throw (notFound i), file)
    else (Ok (Deleted i),
          Document {| memories := rest; version := version (loaded o file);
                      last_updated := saveTime o |})
  else if negb (match EraseArgs.confirm args with
                | Some b => b
                | None => false
                end)
  then (Ok (Preview (eraseSelection args (stored file))), file)
  else (Ok (DeletedBulk (List.length (eraseSelection args (stored file)))),
        Document {| memories :=
                      filter (fun m =>
                                negb (Js.arrayIncludes
                                        (map id (eraseSelection args
                                                   (stored file)))
                                        (id m)))
                             (stored file);
                    version := version (loaded o file);
                    last_updated := saveTime o |}).
Proof.
  unfold handleErase, bind. rewrite loadMemories_loaded, loaded_memories.
  destruct (Js.truthy (EraseArgs.id args)).
  - cbn -[eraseSelection]. destruct (_ =? _)%nat; reflexivity.
  - destruct (negb _); cbn -[eraseSelection]; [reflexivity |].
    now rewrite length_map.
Qed.

(** [findIndex] answers with a position of the array, the first one whose
    element passes the test. *)
Lemma findIndex_some {A : Type} (p : A -> bool) (l : list A) (i : nat) :
  Js.findIndex p l = Some i ->
  exists l1 x l2,
    l = l1 ++ x :: l2 /\ List.length l1 = i /\ p x = true /\
    forall y, In y l1 -> p y = false.
Proof.
  revert i. induction l as [|a l IH]; simpl; intros i H; [discriminate |].
  destruct (p a) eqn:E.
  - injection H as <-. exists [], a, l. repeat split; auto.
    intros y [].
  - destruct (Js.findIndex p l) as [j|]; [| discriminate].
    injection H as <-. destruct (IH j eq_refl) as [l1 [x [l2 [-> [Hl [Hx Hb]]]]]].
    exists (a :: l1), x, l2. repeat split; simpl; auto.
    intros y [<- | Hy]; auto.
Qed.

Lemma callTool_snd (getTime : string -> option Z) (o : Oracle)
  (request : Request) (file : File) :
  snd (callTool getTime o request file)
  = snd (match request with
         | reflect args => handleReflect o args file
         | recall args => handleRecall getTime o args file
         | modify args => handleModify o args file
         | erase args => handleErase o args file
         | unknownTool name =>
             (Throw (McpError MethodNotFound ("Unknown tool: " ++ name)), file)
         end).
Proof.
  unfold callTool.
  destruct request; cbn beta iota; [| | | | reflexivity];
    match goal with
    | |- context [match ?h with pair _ _ => _ end] =>
        destruct h as [[r | [c msg | msg]] f']; reflexivity
    end.
Qed.

(** The record that [handleModify] reads at the index found is there. *)
Lemma handleModify_outcome (o : Oracle) (args : ModifyArgs.t) (file : File) :
  (handleModify o args file = (Throw (notFound (ModifyArgs.id args)), file) /\
   forall m, In m (stored file) -> id m <> ModifyArgs.id args) \/
  exists l1 m l2,
    stored file = l1 ++ m :: l2 /\
    id m = ModifyArgs.id args /\
    (forall x, In x l1 -> id x <> ModifyArgs.id args) /\
    handleModify o args file
    = (Ok (Modified (ModifyArgs.id args) m (applyModify args m)),
       Document {| memories := l1 ++ applyModify args m :: l2;
                   version := version (loaded o file);
                   last_updated := saveTime o |}).
Proof.
  rewrite handleModify_run.
  destruct (Js.findIndex _ (stored file)) as [i|] eqn:E.
  - right. apply findIndex_some in E as [l1 [m [l2 [Hs [Hi [Hm Hb]]]]]].
    exists l1, m, l2. rewrite Hs, <- Hi, nth_error_middle, setAt_middle.
    repeat split.
    + now apply String.eqb_eq.
    + intros x Hx. apply String.eqb_neq. now apply Hb.
  - left. split; [reflexivity |]. intros m Hm.
    apply String.eqb_neq. revert m Hm. now apply findIndex_none.
Qed.

(** Taking records out keeps distinct ids distinct. *)
Lemma filter_keeps_ids_distinct (keep : Memory -> bool)
  (records : list Memory) :
  NoDup (map id records) -> NoDup (map id (filter keep records)).
Proof.
  intros Hnd. induction records as [|r records IH]; [constructor |].
  cbn [map] in Hnd. apply NoDup_cons_iff in Hnd as [Hr Hrest].
  cbn [filter]. destruct (keep r); [| now apply IH].
  cbn [map]. apply NoDup_cons; [| now apply IH].
  intros Hin. apply Hr. apply in_map_iff in Hin as [r' [Hid Hin]].
  apply filter_In in Hin as [Hin _]. rewrite <- Hid. now apply in_map.
Qed.

Lemma handleErase_filters (o : Oracle) (args : EraseArgs.t) (file : File) :
  exists p, stored (snd (handleErase o args file)) = filter p (stored file).
Proof.
  rewrite handleErase_run.
  destruct (Js.truthy (EraseArgs.id args)); cbv zeta.
  - destruct (_ =? _)%nat; cbn [snd stored memories].
    + exists (fun _ => true). symmetry. now apply filter_all.
    + eexists. reflexivity.
  - destruct (negb _); cbn [snd stored memories].
    + exists (fun _ => true). symmetry. now apply filter_all.
    + eexists. reflexivity.
Qed.

(* ================================================================== *)
(** ** Properties of the tool calls as a whole *)
(* ================================================================== *)


(** X2.  Distinct ids are an invariant of the store: when the ids of the
    file are distinct, and the UUID drawn by a reflect call is not among
    them, the ids of the file after any tool call are distinct. *)
Theorem tool_calls_keep_ids_distinct
  (getTime : string -> option Z) (o : Oracle) (request : Request)
  (file : File) :
  NoDup (map id (stored file)) ->
  (forall args, request = reflect args ->
                ~ In (uuid o) (map id (stored file))) ->
  NoDup (map id (stored (snd (callTool getTime o request file)))).
Proof.
  intros Hnd Hfresh. rewrite callTool_snd.
  destruct request as [a | a | a | a | name].
  - destruct (handleReflect_run o a file) as [m [Hrun [Hid _]]].
    rewrite Hrun. cbn [snd stored memories]. rewrite map_app. cbn [map].
    apply NoDup_app_remove_l with (l := []). cbn [app].
    apply Permutation_NoDup with (l := id m :: map id (stored file)).
    + apply Permutation_cons_append.
    + constructor; [| assumption]. rewrite Hid. now apply (Hfresh a).
  - now rewrite handleRecall_run.
  - destruct (handleModify_outcome o a file)
      as [[Hrun _] | [l1 [m [l2 [Hs [_ [_ Hrun]]]]]]];
      rewrite Hrun; cbn [snd stored memories]; [assumption |].
    rewrite Hs in Hnd. now rewrite map_app in *.
  - destruct (handleErase_filters o a file) as [p Hp]. rewrite Hp.
    now apply filter_keeps_ids_distinct.
  - assumption.
Qed.

(** No handler throws anything but an [McpError], so the handler of the
    tool calls passes every outcome on as it is. *)
Lemma callTool_runs_handler (getTime : string -> option Z) (o : Oracle)
  (request : Request) (file : File) :
  callTool getTime o request file
  = match request with
    | reflect args => handleReflect o args file
    | recall args => handleRecall getTime o args file
    | modify args => handleModify o args file
    | erase args => handleErase o args file
    | unknownTool name =>
        (Throw (McpError MethodNotFound ("Unknown tool: " ++ name)), file)
    end.
Proof.
  unfold callTool. destruct request as [a | a | a | a | name].
  - destruct (handleReflect_run o a file) as [m [Hrun _]]. now rewrite Hrun.
  - now rewrite handleRecall_run.
  - destruct (handleModify_outcome o a file)
      as [[Hrun _] | [l1 [m [l2 [_ [_ [_ Hrun]]]]]]]; now rewrite Hrun.
  - rewrite handleErase_run.
    destruct (Js.truthy (EraseArgs.id a)); cbv zeta.
    + now destruct (_ =? _)%nat.
    + now destruct (negb _).
  - reflexivity.
Qed.

(** On arguments read at their declared type, a tool call throws for an
    absent id or an unknown tool only, and the file is then as it was. *)
Lemma callTool_throws
  (getTime : string -> option Z) (o : Oracle) (request : Request)
  (file : File) (e : Exception) :
  fst (callTool getTime o request file) = Throw e ->
  snd (callTool getTime o request file) = file /\
  ((exists args,
       request = modify args /\ e = notFound (ModifyArgs.id args) /\
       forall m, In m (stored file) -> id m <> ModifyArgs.id args) \/
   (exists args i,
       request = erase args /\ EraseArgs.id args = Some i /\ i <> "" /\
       e = notFound i /\
       forall m, In m (stored file) -> id m <> i) \/
   (exists name,
       request = unknownTool name /\
       e = McpError MethodNotFound ("Unknown tool: " ++ name))).
Proof.
  rewrite callTool_runs_handler.
  destruct request as [a | a | a | a | name].
  - destruct (handleReflect_run o a file) as [m [Hrun _]]. rewrite Hrun.
    discriminate.
  - rewrite handleRecall_run. discriminate.
  - destruct (handleModify_outcome o a file)
      as [[Hrun Habs] | [l1 [m [l2 [_ [_ [_ Hrun]]]]]]]; rewrite Hrun;
      [| discriminate].
    cbn [fst snd]. intros H. injection H as <-. split; [reflexivity |].
    left. exists a. auto.
  - rewrite handleErase_run.
    destruct (EraseArgs.id a) as [i|] eqn:Ei; cbn [Js.truthy].
    + destruct (String.eqb i "") eqn:Ene; cbn [negb].
      * destruct (negb _); discriminate.
      * cbv zeta. destruct (_ =? _)%nat eqn:El; [| discriminate].
        cbn [fst snd]. intros H. injection H as <-. split; [reflexivity |].
        right; left. exists a, i. repeat split; auto.
        -- now apply String.eqb_neq.
        -- apply Nat.eqb_eq in El.
           pose proof (proj1 (filter_length_all _ _) El) as Hall.
           intros m Hm. apply String.eqb_neq. apply negb_true_iff.
           now apply (Hall m).
    + destruct (negb _); discriminate.
  - cbn [fst snd]. intros H. injection H as <-. split; [reflexivity |].
    right; right. now exists name.
Qed.

Lemma Decode_items_strings (l : list string) :
  Decode.items (map JsString l) = Some l.
Proof.
  induction l as [|x l IH]; simpl; [reflexivity | now rewrite IH].
Qed.

(** Reading back what was written: the argument records of the embedding
    are the reading of their own objects, so a request that carries such
    an object runs the handler on the record. *)
Lemma callToolAny_typed (getTime : string -> option Z) (o : Oracle) :
  (forall a, callToolAny getTime o "reflect" (Encode.reflectArgs a)
             = Some (callTool getTime o (reflect a))) /\
  (forall a, callToolAny getTime o "recall" (Encode.recallArgs a)
             = Some (callTool getTime o (recall a))) /\
  (forall a, callToolAny getTime o "modify" (Encode.modifyArgs a)
             = Some (callTool getTime o (modify a))) /\
  (forall a, callToolAny getTime o "erase" (Encode.eraseArgs a)
             = Some (callTool getTime o (erase a))).
Proof.
  repeat split.
  - intros [c [t|] [cx|] [s|] [[| |]|] [[| | | |]|]];
      unfold callToolAny, handleReflectAny, Decode.reflectArgs; cbn;
      rewrite ?Decode_items_strings; reflexivity.
  - intros [[q|] [t|] [s|] [[| |]|] [[| | | |]|] [n|]];
      unfold callToolAny, handleRecallAny, Decode.recallArgs; cbn;
      rewrite ?Decode_items_strings; reflexivity.
  - intros [i [c|] [t|] [cx|] [[| |]|] [[| | | |]|]];
      unfold callToolAny, handleModifyAny, Decode.modifyArgs; cbn;
      rewrite ?Decode_items_strings; reflexivity.
  - intros [[i|] [q|] [t|] [s|] [c|]];
      unfold callToolAny, handleEraseAny, Decode.eraseArgs; cbn;
      rewrite ?Decode_items_strings; reflexivity.
Qed.

Lemma callTool_catch (getTime : string -> option Z) (o : Oracle)
  (request : Request) (file : File) :
  callTool getTime o request file
  = rethrowOrReply
      match request with
      | reflect args => handleReflect o args
      | recall args => handleRecall getTime o args
      | modify args => handleModify o args
      | erase args => handleErase o args
      | unknownTool name =>
          throw (McpError MethodNotFound ("Unknown tool: " ++ name))
      end file.
Proof. reflexivity. Qed.

(** X3.  A tool call throws in four cases only, and then the file is as
    it was: arguments that fail the validator of the tool (the error
    [Invalid ... arguments], thrown before the file is read), a modify
    call whose id no record has, an erase call with a non-empty id that no
    record has (both with the not-found message), and the call of a tool
    that does not exist. *)
Theorem tool_call_throws_in_four_cases_only
  (getTime : string -> option Z) (o : Oracle) (name : string)
  (arguments : JsValue) (run : M Response) (file : File) (e : Exception) :
  callToolAny getTime o name arguments = Some run ->
  fst (run file) = Throw e ->
  snd (run file) = file /\
  ((e = McpError InvalidParams ("Invalid " ++ name ++ " arguments") /\
    (name = "reflect" /\ Validate.isValidReflectArgs arguments = false \/
     name = "recall" /\ Validate.isValidRecallArgs arguments = false \/
     name = "modify" /\ Validate.isValidModifyArgs arguments = false \/
     name = "erase" /\ Validate.isValidEraseArgs arguments = false)) \/
   (exists args,
       name = "modify" /\ Validate.isValidModifyArgs arguments = true /\
       Decode.modifyArgs arguments = Some args /\
       e = notFound (ModifyArgs.id args) /\
       forall m, In m (stored file) -> id m <> ModifyArgs.id args) \/
   (exists args i,
       name = "erase" /\ Validate.isValidEraseArgs arguments = true /\
       Decode.eraseArgs arguments = Some args /\
       EraseArgs.id args = Some i /\ i <> "" /\
       e = notFound i /\
       forall m, In m (stored file) -> id m <> i) \/
   (name <> "reflect" /\ name <> "recall" /\ name <> "modify" /\
    name <> "erase" /\
    e = McpError MethodNotFound ("Unknown tool: " ++ name))).
Proof.
  intros Hrun Hthrow. unfold callToolAny in Hrun.
  destruct (String.eqb name "reflect") eqn:E1.
  { apply String.eqb_eq in E1. subst name. unfold handleReflectAny in Hrun.
    destruct (Validate.isValidReflectArgs arguments) eqn:V; cbn in Hrun.
    - destruct (Decode.reflectArgs arguments) as [a|]; [| discriminate].
      cbn in Hrun. injection Hrun as <-.
      rewrite <- (callTool_catch getTime o (reflect a)) in *.
      destruct (callTool_throws _ _ _ _ _ Hthrow)
        as [_ [[a' [Hr _]] | [[a' [i [Hr _]]] | [n [Hr _]]]]];
        discriminate.
    - injection Hrun as <-. cbn in Hthrow. injection Hthrow as <-.
      split; [reflexivity |]. left. split; [reflexivity |]. now left. }
  destruct (String.eqb name "recall") eqn:E2.
  { apply String.eqb_eq in E2. subst name. unfold handleRecallAny in Hrun.
    destruct (Validate.isValidRecallArgs arguments) eqn:V; cbn in Hrun.
    - destruct (Decode.recallArgs arguments) as [a|]; [| discriminate].
      cbn in Hrun. injection Hrun as <-.
      rewrite <- (callTool_catch getTime o (recall a)) in *.
      destruct (callTool_throws _ _ _ _ _ Hthrow)
        as [_ [[a' [Hr _]] | [[a' [i [Hr _]]] | [n [Hr _]]]]];
        discriminate.
    - injection Hrun as <-. cbn in Hthrow. injection Hthrow as <-.
      split; [reflexivity |]. left. split; [reflexivity |]. right. now left. }
  destruct (String.eqb name "modify") eqn:E3.
  { apply String.eqb_eq in E3. subst name. unfold handleModifyAny in Hrun.
    destruct (Validate.isValidModifyArgs arguments) eqn:V; cbn in Hrun.
    - destruct (Decode.modifyArgs arguments) as [a|] eqn:D; [| discriminate].
      cbn in Hrun. injection Hrun as <-.
      rewrite <- (callTool_catch getTime o (modify a)) in *.
      destruct (callTool_throws _ _ _ _ _ Hthrow)
        as [Hfile [[a' [Hr [He Habs]]] | [[a' [i [Hr _]]] | [n [Hr _]]]]];
        try discriminate.
      injection Hr as <-. split; [exact Hfile |]. right; left.
      exists a. auto.
    - injection Hrun as <-. cbn in Hthrow. injection Hthrow as <-.
      split; [reflexivity |]. left. split; [reflexivity |].
      right; right. now left. }
  destruct (String.eqb name "erase") eqn:E4.
  { apply String.eqb_eq in E4. subst name. unfold handleEraseAny in Hrun.
    destruct (Validate.isValidEraseArgs arguments) eqn:V; cbn in Hrun.
    - destruct (Decode.eraseArgs arguments) as [a|] eqn:D; [| discriminate].
      cbn in Hrun. injection Hrun as <-.
      rewrite <- (callTool_catch getTime o (erase a)) in *.
      destruct (callTool_throws _ _ _ _ _ Hthrow)
        as [Hfile [[a' [Hr _]]
                  | [[a' [i [Hr [Hi [Hne [He Habs]]]]]] | [n [Hr _]]]]];
        try discriminate.
      injection Hr as <-. split; [exact Hfile |]. right; right; left.
      exists a, i. auto 10.
    - injection Hrun as <-. cbn in Hthrow. injection Hthrow as <-.
      split; [reflexivity |]. left. split; [reflexivity |].
      right; right. now right. }
  cbn in Hrun. injection Hrun as <-. cbn in Hthrow. injection Hthrow as <-.
  split; [reflexivity |]. right; right; right.
  apply String.eqb_neq in E1, E2, E3, E4. auto.
Qed.

(** X5.  A tool call either leaves the file as it was or writes a document
    that keeps the version it read (1.0.0 when there was no document) and
    carries the time of the save as [last_updated]. *)
Theorem tool_call_keeps_version_and_stamps_save
  (getTime : string -> option Z) (o : Oracle) (request : Request)
  (file : File) :
  snd (callTool getTime o request file) = file \/
  exists storage,
    snd (callTool getTime o request file) = Document storage /\
    version storage = version (loaded o file) /\
    last_updated storage = saveTime o.
Proof.
  rewrite callTool_runs_handler.
  destruct request as [a | a | a | a | name].
  - destruct (handleReflect_run o a file) as [m [Hrun _]]. rewrite Hrun.
    right. eexists. repeat split.
  - rewrite handleRecall_run. now left.
  - destruct (handleModify_outcome o a file)
      as [[Hrun _] | [l1 [m [l2 [_ [_ [_ Hrun]]]]]]]; rewrite Hrun;
      [now left |]. right. eexists. repeat split.
  - rewrite handleErase_run.
    destruct (Js.truthy (EraseArgs.id a)); cbv zeta.
    + destruct (_ =? _)%nat; [now left |]. right. eexists. repeat split.
    + destruct (negb _); [now left |]. right. eexists. repeat split.
  - now left.
Qed.

(* ================================================================== *)
(** ** Properties of the filters and of recall *)
(* ================================================================== *)

Lemma Importance_eqb_eq (a b : Importance) :
  Importance_eqb a b = true <-> a = b.
Proof. destruct a, b; simpl; split; congruence. Qed.

Lemma MemoryType_eqb_eq (a b : MemoryType) :
  MemoryType_eqb a b = true <-> a = b.
Proof. destruct a, b; simpl; split; congruence. Qed.

Lemma passesFilters_guards (filters : Filters.t) (m : Memory) :
  passesFilters filters m = true <->
  tagsReject filters m = false /\ sessionReject filters m = false /\
  importanceReject filters m = false /\ typeReject filters m = false.
Proof.
  unfold passesFilters.
  destruct (tagsReject filters m), (sessionReject filters m),
    (importanceReject filters m), (typeReject filters m);
    intuition discriminate.
Qed.

Lemma sessionReject_spec (filters : Filters.t) (m : Memory) :
  sessionReject filters m = false <->
  forall s, Filters.session_id filters = Some s -> s <> "" ->
            session_id m = Some s.
Proof.
  unfold sessionReject. destruct (Filters.session_id filters) as [s|].
  - destruct (String.eqb s "") eqn:E; cbn [negb andb].
    + apply String.eqb_eq in E. split; [| reflexivity].
      intros _ s' Hs Hne. injection Hs as <-. contradiction.
    + apply String.eqb_neq in E. rewrite negb_false_iff.
      destruct (session_id m) as [s'|].
      * rewrite String.eqb_eq. split.
        -- intros -> s0 Hs _. now injection Hs as <-.
        -- intros H. specialize (H s eq_refl E). now injection H.
      * split; [discriminate |]. intros H. now specialize (H s eq_refl E).
  - split; [| reflexivity]. intros _ s Hs. discriminate.
Qed.

(** X6.  [filterMemories] keeps a record exactly when every filter that is
    supplied holds of it: it has one of the requested tags, its session is
    the requested one (an empty session string asks for nothing, and a
    record without session fails a real request), its importance and its
    type are the requested ones. *)
Theorem filter_keeps_records_passing_every_supplied_filter
  (filters : Filters.t) (memories : list Memory) (m : Memory) :
  In m (filterMemories memories filters) <->
  In m memories /\
  (forall wanted, Filters.tags filters = Some wanted -> hasOneOf wanted m) /\
  (forall s, Filters.session_id filters = Some s -> s <> "" ->
             session_id m = Some s) /\
  (forall i, Filters.importance filters = Some i -> importance m = i) /\
  (forall t, Filters.type filters = Some t -> type m = t).
Proof.
  unfold filterMemories.
  rewrite filter_In, passesFilters_guards, sessionReject_spec.
  assert (Ht : tagsReject filters m = false <->
               forall wanted, Filters.tags filters = Some wanted ->
                              hasOneOf wanted m).
  { destruct (Filters.tags filters) as [w|] eqn:E.
    - rewrite (tagsReject_spec filters w m E). split.
      + intros H w' Hw. now injection Hw as <-.
      + intros H. now apply H.
    - unfold tagsReject. rewrite E. split; [| reflexivity].
      intros _ w Hw. discriminate. }
  assert (Hi : importanceReject filters m = false <->
               forall i, Filters.importance filters = Some i ->
                         importance m = i).
  { unfold importanceReject. destruct (Filters.importance filters) as [i|].
    - rewrite negb_false_iff, Importance_eqb_eq. split.
      + intros H i' Hi'. now injection Hi' as <-.
      + intros H. now apply H.
    - split; [| reflexivity]. intros _ i Hi'. discriminate. }
  assert (Hty : typeReject filters m = false <->
                forall t, Filters.type filters = Some t -> type m = t).
  { unfold typeReject. destruct (Filters.type filters) as [t|].
    - rewrite negb_false_iff, MemoryType_eqb_eq. split.
      + intros H t' Ht'. now injection Ht' as <-.
      + intros H. now apply H.
    - split; [| reflexivity]. intros _ t Ht'. discriminate. }
  rewrite Ht, Hi, Hty. reflexivity.
Qed.

Lemma recallSelection_filter (args : RecallArgs.t) (memories : list Memory) :
  recallSelection args memories = filter (recallTest args) memories.
Proof.
  unfold recallSelection, filterMemories, recallTest.
  rewrite search_guard. unfold searchMemories.
  destruct (RecallArgs.query args) as [q|].
  - destruct (String.eqb q ""); simpl; [reflexivity | apply filter_filter].
  - reflexivity.
Qed.

Lemma slice0_prefix {A : Type} (l : list A) (n : Z) :
  exists k, Js.slice0 l n = firstn k l.
Proof.
  unfold Js.slice0. destruct (n <? 0)%Z; eexists; reflexivity.
Qed.

(** X7.  A recall never writes the file, also when there is no file.
    What a recall returns is taken from the records that pass the query
    and the filters: each returned record is one of them, and none is
    returned more often than it is stored. *)
Theorem recall_reads_only_and_returns_selected_records
  (getTime : string -> option Z) (o : Oracle) (args : RecallArgs.t)
  (file : File) :
  snd (handleRecall getTime o args file) = file /\
  forall found,
    fst (handleRecall getTime o args file) = Ok (Recalled found) ->
    (exists others,
        Permutation (found ++ others)
                    (recallSelection args (stored file))) /\
    forall m, In m found -> In m (stored file) /\ recallTest args m = true.
Proof.
  rewrite handleRecall_run. split; [reflexivity |].
  cbn [fst]. intros found Hfound. injection Hfound as <-.
  set (ordered := Js.sort (byTimestampDesc getTime)
                          (recallSelection args (stored file))).
  destruct (slice0_prefix ordered
              (match RecallArgs.limit args with
               | Some n => if (n =? 0)%Z then 10%Z else n
               | None => 10%Z
               end)) as [k Hk].
  rewrite Hk.
  assert (Hp : Permutation (firstn k ordered ++ skipn k ordered)
                           (recallSelection args (stored file))).
  { rewrite firstn_skipn. apply sort_perm. }
  split; [now exists (skipn k ordered) |]. intros m Hm.
  assert (Hin : In m (recallSelection args (stored file))).
  { apply (Permutation_in _ Hp). apply in_or_app. now left. }
  rewrite recallSelection_filter in Hin. now apply filter_In in Hin.
Qed.

(** X8.  For any limit of at least 1, above 100 as well, a recall returns
    as many records as the limit allows: the smaller of the limit and the
    number of records that pass the query and the filters. *)
Theorem recall_count_is_limit_or_all
  (getTime : string -> option Z) (o : Oracle) (args : RecallArgs.t)
  (file : File) (n : Z) :
  RecallArgs.limit args = Some n -> (1 <= n)%Z ->
  exists found,
    handleRecall getTime o args file = (Ok (Recalled found), file) /\
    List.length found
    = Nat.min (Z.to_nat n)
              (List.length (recallSelection args (stored file))).
Proof.
  intros Hl Hn. rewrite handleRecall_run, Hl.
  destruct (n =? 0)%Z eqn:E; [apply Z.eqb_eq in E; lia |].
  unfold Js.slice0. destruct (n <? 0)%Z eqn:E'; [apply Z.ltb_lt in E'; lia |].
  eexists. split; [reflexivity |].
  rewrite length_firstn. f_equal.
  apply Permutation_length, sort_perm.
Qed.

(** X9.  A limit of 0 is read as no limit given: the recall answers as the
    same call without [limit], with at most 10 records. *)
Theorem recall_limit_zero_is_default
  (getTime : string -> option Z) (o : Oracle) (file : File)
  (q : option string) (t : option (list string)) (s : option string)
  (i : option Importance) (ty : option MemoryType) :
  handleRecall getTime o
    {| RecallArgs.query := q; RecallArgs.tags := t;
       RecallArgs.session_id := s; RecallArgs.importance := i;
       RecallArgs.type := ty; RecallArgs.limit := Some 0%Z |} file
  = handleRecall getTime o
      {| RecallArgs.query := q; RecallArgs.tags := t;
         RecallArgs.session_id := s; RecallArgs.importance := i;
         RecallArgs.type := ty; RecallArgs.limit := None |} file /\
  exists found,
    fst (handleRecall getTime o
           {| RecallArgs.query := q; RecallArgs.tags := t;
              RecallArgs.session_id := s; RecallArgs.importance := i;
              RecallArgs.type := ty; RecallArgs.limit := Some 0%Z |} file)
    = Ok (Recalled found) /\
    (List.length found <= 10)%nat.
Proof.
  rewrite !handleRecall_run. split; [reflexivity |].
  eexists. split; [reflexivity |]. cbn [RecallArgs.limit Z.eqb].
  unfold Js.slice0. cbn [Z.ltb Z.compare]. apply firstn_le_length.
Qed.

(** X10.  A negative limit does not fail: the recall returns the selected
    records, most recent first, without the last [-limit] of them. *)
Theorem recall_negative_limit_drops_from_the_end
  (getTime : string -> option Z) (o : Oracle) (args : RecallArgs.t)
  (file : File) (n : Z) :
  RecallArgs.limit args = Some n -> (n < 0)%Z ->
  exists found ordered,
    handleRecall getTime o args file = (Ok (Recalled found), file) /\
    Permutation ordered (recallSelection args (stored file)) /\
    (datedAll getTime (stored file) ->
     StronglySorted (newerFirst getTime) ordered) /\
    found = firstn (List.length ordered - Z.to_nat (- n)) ordered.
Proof.
  intros Hl Hn. rewrite handleRecall_run, Hl.
  destruct (n =? 0)%Z eqn:E; [apply Z.eqb_eq in E; lia |].
  unfold Js.slice0. destruct (n <? 0)%Z eqn:E'; [| apply Z.ltb_ge in E'; lia].
  eexists. eexists. split; [reflexivity |].
  split; [apply sort_perm |]. split.
  - intros Hd. apply sort_sorted. unfold datedAll in *.
    rewrite Forall_forall in *. intros m Hm. apply Hd.
    now apply recallSelection_incl in Hm.
  - f_equal. lia.
Qed.

(** X11.  When the limit is at least the number of selected records, a
    recall loses none: it returns a rearrangement of them.  On a store
    whose timestamps are dates, records of one and the same instant come
    back in the order in which the file holds them. *)
Theorem recall_within_limit_returns_all_and_keeps_ties_in_order
  (getTime : string -> option Z) (o : Oracle) (args : RecallArgs.t)
  (file : File) :
  (1 <= requestedLimit args)%Z ->
  (List.length (recallSelection args (stored file))
   <= Z.to_nat (requestedLimit args))%nat ->
  exists found,
    handleRecall getTime o args file = (Ok (Recalled found), file) /\
    Permutation found (recallSelection args (stored file)) /\
    (datedAll getTime (stored file) ->
     forall t, filter (sameInstant getTime t) found
               = filter (sameInstant getTime t)
                        (recallSelection args (stored file))).
Proof.
  intros Hlim Hlen. rewrite handleRecall_run.
  set (sel := recallSelection args (stored file)) in *.
  assert (Hslice :
    Js.slice0 (Js.sort (byTimestampDesc getTime) sel)
      (match RecallArgs.limit args with
       | Some n => if (n =? 0)%Z then 10%Z else n
       | None => 10%Z
       end)
    = Js.sort (byTimestampDesc getTime) sel).
  { unfold requestedLimit in *.
    assert (Hsame : List.length (Js.sort (byTimestampDesc getTime) sel)
                    = List.length sel)
      by apply Permutation_length, sort_perm.
    destruct (RecallArgs.limit args) as [n|].
    - destruct (n =? 0)%Z eqn:E; [apply Z.eqb_eq in E; lia |].
      unfold Js.slice0.
      destruct (n <? 0)%Z eqn:E'; [apply Z.ltb_lt in E'; lia |].
      apply firstn_all2. lia.
    - unfold Js.slice0. cbn [Z.ltb Z.compare]. apply firstn_all2. lia. }
  rewrite Hslice. eexists. split; [reflexivity |].
  split; [apply sort_perm |]. intros Hd t.
  apply (sort_stable getTime t sel). unfold datedAll in *.
  rewrite Forall_forall in *. intros m Hm. apply Hd.
  now apply recallSelection_incl in Hm.
Qed.

(** X12.  In a recall, an empty query string and an empty session string
    count as not supplied. *)
Theorem recall_reads_empty_strings_as_absent
  (getTime : string -> option Z) (o : Oracle) (file : File)
  (q s : option string) (t : option (list string))
  (i : option Importance) (ty : option MemoryType) (n : option Z) :
  handleRecall getTime o
    {| RecallArgs.query := q; RecallArgs.tags := t;
       RecallArgs.session_id := s; RecallArgs.importance := i;
       RecallArgs.type := ty; RecallArgs.limit := n |} file
  = handleRecall getTime o
      {| RecallArgs.query := if Js.truthy q then q else None;
         RecallArgs.tags := t;
         RecallArgs.session_id := if Js.truthy s then s else None;
         RecallArgs.importance := i;
         RecallArgs.type := ty; RecallArgs.limit := n |} file.
Proof.
  rewrite !handleRecall_run. cbn [RecallArgs.limit].
  do 3 f_equal. f_equal. f_equal.
  rewrite !recallSelection_filter. apply filter_ext_in'. intros m _.
  unfold recallTest, passesFilters, sessionReject.
  cbn [RecallArgs.query RecallArgs.tags RecallArgs.session_id
       RecallArgs.importance RecallArgs.type Filters.session_id].
  f_equal.
  - destruct q as [q|]; [| reflexivity]. cbn [Js.truthy].
    destruct (String.eqb q "") eqn:E; [reflexivity |]. cbn [negb].
    now rewrite E.
  - destruct s as [s|]; [| reflexivity]. cbn [Js.truthy].
    destruct (String.eqb s "") eqn:E; cbn [negb andb]; [reflexivity |].
    now rewrite E.
Qed.

(** X13.  In an erase, an empty id, an empty query string and an empty
    session string count as not supplied; so an erase with [id = ''] is a
    bulk erase. *)
Theorem erase_reads_empty_strings_as_absent
  (o : Oracle) (file : File) (i q s : option string)
  (t : option (list string)) (c : option bool) :
  handleErase o
    {| EraseArgs.id := i; EraseArgs.query := q; EraseArgs.tags := t;
       EraseArgs.session_id := s; EraseArgs.confirm := c |} file
  = handleErase o
      {| EraseArgs.id := if Js.truthy i then i else None;
         EraseArgs.query := if Js.truthy q then q else None;
         EraseArgs.tags := t;
         EraseArgs.session_id := if Js.truthy s then s else None;
         EraseArgs.confirm := c |} file.
Proof.
  assert (Hsel : forall i' l,
    eraseSelection
      {| EraseArgs.id := i; EraseArgs.query := q; EraseArgs.tags := t;
         EraseArgs.session_id := s; EraseArgs.confirm := c |} l
    = eraseSelection
        {| EraseArgs.id := i';
           EraseArgs.query := if Js.truthy q then q else None;
           EraseArgs.tags := t;
           EraseArgs.session_id := if Js.truthy s then s else None;
           EraseArgs.confirm := c |} l).
  { intros i' l. rewrite !eraseSelection_filter. apply filter_ext_in'.
    intros m _. unfold eraseTest, passesFilters, sessionReject.
    cbn [EraseArgs.query EraseArgs.tags EraseArgs.session_id
         Filters.session_id].
    f_equal.
    - destruct q as [q'|]; [| reflexivity]. cbn [Js.truthy].
      destruct (String.eqb q' "") eqn:E; [reflexivity |]. cbn [negb].
      now rewrite E.
    - destruct s as [s'|]; [| reflexivity]. cbn [Js.truthy].
      destruct (String.eqb s' "") eqn:E; cbn [negb andb]; [reflexivity |].
      now rewrite E. }
  rewrite !handleErase_run. cbn [EraseArgs.id EraseArgs.confirm].
  destruct (Js.truthy i) eqn:Ei.
  - rewrite Ei. reflexivity.
  - cbn [Js.truthy]. rewrite <- !Hsel. reflexivity.
Qed.

Lemma equalIgnoringCase_empty (q q' : string) :
  equalIgnoringCase q q' -> String.eqb q "" = String.eqb q' "".
Proof. now destruct 1. Qed.

(** X14.  The case of the query does not matter: two queries that differ
    only in the case of their letters select the same records. *)
Theorem search_ignores_case_of_query
  (memories : list Memory) (q q' : string) :
  equalIgnoringCase q q' ->
  searchMemories memories (Some q) = searchMemories memories (Some q').
Proof.
  intros H. unfold searchMemories.
  rewrite (equalIgnoringCase_empty q q' H).
  apply toLowerCase_same in H. now rewrite H.
Qed.

Lemma string_app_assoc (a b c : string) :
  ((a ++ b) ++ c)%string = (a ++ (b ++ c))%string.
Proof.
  induction a as [|x a IH]; simpl; [reflexivity | now rewrite IH].
Qed.

Lemma includes_part (s before q after : string) :
  Js.includes s (before ++ q ++ after)%string = true ->
  Js.includes s q = true.
Proof.
  rewrite !includes_spec. intros [b [a ->]].
  exists (b ++ before)%string, (after ++ a)%string.
  now rewrite !string_app_assoc.
Qed.

Lemma searchMemories_In (memories : list Memory) (q : string) (m : Memory) :
  In m (searchMemories memories (Some q)) <->
  In m memories /\ (q = "" \/ queryMatches (Js.toLowerCase q) m = true).
Proof.
  unfold searchMemories. destruct (String.eqb q "") eqn:E.
  - apply String.eqb_eq in E. tauto.
  - apply String.eqb_neq in E. rewrite filter_In. tauto.
Qed.

(** X15.  A shorter query finds no less: every record that a query keeps
    is kept by any part of that query. *)
Theorem search_with_part_of_query_keeps_matches
  (memories : list Memory) (before q after : string) (m : Memory) :
  In m (searchMemories memories (Some (before ++ q ++ after)%string)) ->
  In m (searchMemories memories (Some q)).
Proof.
  rewrite !searchMemories_In. intros [Hin [He | Hm]].
  - split; [assumption |]. left.
    destruct before; [| discriminate]. now destruct q.
  - split; [assumption |]. right.
    unfold queryMatches in *. rewrite !toLowerCase_app in Hm.
    rewrite !orb_true_iff in *.
    destruct Hm as [[H | H] | H].
    + left; left. eapply includes_part; eassumption.
    + left; right. eapply includes_part; eassumption.
    + right. rewrite existsb_exists in *. destruct H as [tag [Ht H]].
      exists tag. split; [assumption |].
      eapply includes_part; eassumption.
Qed.

(* ================================================================== *)
(** ** Properties of erase, modify and reflect in sequence *)
(* ================================================================== *)

(** X16.  An erase call never adds, changes or reorders records: what it
    leaves in the file is the collection it read with some records taken
    out. *)
Theorem erase_only_takes_records_out
  (o : Oracle) (args : EraseArgs.t) (file : File) :
  exists p, stored (snd (handleErase o args file)) = filter p (stored file).
Proof. apply handleErase_filters. Qed.

Lemma handleErase_bulk (o : Oracle) (args : EraseArgs.t) (file : File) :
  Js.truthy (EraseArgs.id args) = false ->
  EraseArgs.confirm args = Some true ->
  handleErase o args file
  = (Ok (DeletedBulk (List.length (eraseSelection args (stored file)))),
     Document {| memories :=
                   filter (fun m =>
                             negb (Js.arrayIncludes
                                     (map id (eraseSelection args
                                                (stored file)))
                                     (id m)))
                          (stored file);
                 version := version (loaded o file);
                 last_updated := saveTime o |}).
Proof.
  intros Hi Hc. rewrite handleErase_run, Hi, Hc. reflexivity.
Qed.

(** X17.  A confirmed bulk erase leaves nothing for itself to do: the same
    call made again reports 0 deletions and keeps every record, whether
    or not ids are distinct. *)
Theorem bulk_erase_again_removes_nothing
  (o o' : Oracle) (args : EraseArgs.t) (file : File) :
  Js.truthy (EraseArgs.id args) = false ->
  EraseArgs.confirm args = Some true ->
  fst (handleErase o' args (snd (handleErase o args file)))
  = Ok (DeletedBulk 0) /\
  stored (snd (handleErase o' args (snd (handleErase o args file))))
  = stored (snd (handleErase o args file)).
Proof.
  intros Hi Hc. rewrite (handleErase_bulk o args file Hi Hc).
  cbn [snd]. rewrite (handleErase_bulk o' args _ Hi Hc).
  cbn [fst snd stored memories].
  set (ids := map id (eraseSelection args (stored file))).
  set (rest := filter (fun m => negb (Js.arrayIncludes ids (id m)))
                      (stored file)).
  assert (Hnone : eraseSelection args rest = []).
  { rewrite eraseSelection_filter. apply filter_none. intros x Hx.
    apply filter_In in Hx as [Hin Hout].
    destruct (eraseTest args x) eqn:E; [| reflexivity].
    apply negb_true_iff in Hout.
    assert (Hid : Js.arrayIncludes ids (id x) = true).
    { apply arrayIncludes_In. unfold ids. apply in_map.
      rewrite eraseSelection_filter. apply filter_In. now split. }
    congruence. }
  rewrite Hnone. split; [reflexivity |]. now apply filter_all.
Qed.

(** X18.  With distinct ids, a confirmed bulk erase leaves exactly the
    records that its query and filters do not select, in their order. *)
Theorem bulk_erase_keeps_exactly_the_unselected
  (o : Oracle) (args : EraseArgs.t) (file : File) :
  Js.truthy (EraseArgs.id args) = false ->
  EraseArgs.confirm args = Some true ->
  NoDup (map id (stored file)) ->
  stored (snd (handleErase o args file))
  = filter (fun m => negb (eraseTest args m)) (stored file) /\
  forall m, In m (stored (snd (handleErase o args file))) <->
            In m (stored file) /\
            ~ In m (eraseSelection args (stored file)).
Proof.
  intros Hi Hc Hnd. rewrite (handleErase_bulk o args file Hi Hc).
  cbn [snd stored memories]. rewrite (bulk_erase_remainder args) by assumption.
  split; [reflexivity |]. intros m.
  rewrite eraseSelection_filter, !filter_In, negb_true_iff.
  split.
  - intros [Hin Hf]. split; [assumption |]. intros [_ Ht]. congruence.
  - intros [Hin Hn]. split; [assumption |].
    destruct (eraseTest args m); [exfalso; auto | reflexivity].
Qed.

(** X19.  After an erase by id, no record of the file has that id; the
    records of other ids are all kept, in their order; and the same call
    made again throws the not-found error. *)
Theorem erase_by_id_leaves_no_record_of_that_id
  (o o' : Oracle) (args : EraseArgs.t) (file : File) (i : string) :
  EraseArgs.id args = Some i -> i <> "" ->
  stored (snd (handleErase o args file))
  = filter (fun m => negb (String.eqb (id m) i)) (stored file) /\
  (forall m, In m (stored (snd (handleErase o args file))) -> id m <> i) /\
  handleErase o' args (snd (handleErase o args file))
  = (Throw (notFound i), snd (handleErase o args file)).
Proof.
  intros Hi Hne.
  assert (Hafter : stored (snd (handleErase o args file))
                   = filter (fun m => negb (String.eqb (id m) i))
                            (stored file)).
  { rewrite (handleErase_by_id o args file i _ Hi Hne
               (loadMemories_loaded o file)).
    cbv zeta. rewrite loaded_memories.
    destruct (_ =? _)%nat eqn:E; cbn [snd stored memories]; [| reflexivity].
    apply Nat.eqb_eq in E. symmetry. apply filter_all.
    exact (proj1 (filter_length_all _ _) E). }
  assert (Hnone : forall m, In m (stored (snd (handleErase o args file))) ->
                            id m <> i).
  { intros m Hm. rewrite Hafter in Hm. apply filter_In in Hm as [_ Hm].
    now apply String.eqb_neq, negb_true_iff. }
  split; [exact Hafter |]. split; [exact Hnone |].
  rewrite (handleErase_by_id o' args _ i _ Hi Hne
             (loadMemories_loaded o' _)).
  cbv zeta. rewrite loaded_memories, filter_all, Nat.eqb_refl; [reflexivity |].
  intros x Hx. apply negb_true_iff, String.eqb_neq. now apply Hnone.
Qed.

(** X20.  Erasing by id the record that a reflect call has just stored
    gives back the records that were there before, when the UUID drawn is
    not empty and not the id of a stored record. *)
Theorem reflect_then_erase_by_id_restores_records
  (o o' : Oracle) (rargs : ReflectArgs.t) (eargs : EraseArgs.t)
  (file : File) :
  uuid o <> "" ->
  ~ In (uuid o) (map id (stored file)) ->
  EraseArgs.id eargs = Some (uuid o) ->
  fst (handleErase o' eargs (snd (handleReflect o rargs file)))
  = Ok (Deleted (uuid o)) /\
  stored (snd (handleErase o' eargs (snd (handleReflect o rargs file))))
  = stored file.
Proof.
  intros Hne Hfresh Hi.
  destruct (handleReflect_run o rargs file) as [m [Hrun [Hid _]]].
  rewrite Hrun. cbn [snd].
  rewrite (handleErase_by_id o' eargs _ (uuid o) _ Hi Hne
             (loadMemories_loaded o' _)).
  cbv zeta. cbn [loaded memories version].
  assert (Hf : filter (fun x => negb (String.eqb (id x) (uuid o)))
                      (stored file ++ [m]) = stored file).
  { rewrite filter_app. cbn [filter]. rewrite Hid, String.eqb_refl.
    cbn [negb]. rewrite app_nil_r. apply filter_all. intros x Hx.
    apply negb_true_iff, String.eqb_neq. intros He. apply Hfresh.
    rewrite <- He. now apply in_map. }
  rewrite Hf.
  replace (List.length (stored file) =? List.length (stored file ++ [m]))%nat
    with false
    by (symmetry; apply Nat.eqb_neq; rewrite length_app; simpl; lia).
  split; reflexivity.
Qed.

Lemma applyModify_nothing (args : ModifyArgs.t) (m : Memory) :
  ModifyArgs.content args = None -> ModifyArgs.tags args = None ->
  ModifyArgs.context args = None -> ModifyArgs.importance args = None ->
  ModifyArgs.type args = None ->
  applyModify args m = m.
Proof.
  intros H1 H2 H3 H4 H5. unfold applyModify.
  rewrite H1, H2, H3, H4, H5. now destruct m.
Qed.

Lemma applyModify_twice (args : ModifyArgs.t) (m : Memory) :
  applyModify args (applyModify args m) = applyModify args m.
Proof.
  unfold applyModify. cbn.
  destruct (ModifyArgs.content args), (ModifyArgs.tags args),
    (ModifyArgs.context args), (ModifyArgs.importance args),
    (ModifyArgs.type args); reflexivity.
Qed.

(** X21.  A modify call that supplies no field changes no record: the
    collection in the file afterwards is the one before, whether the id is
    found, in which case the file is written again, or not. *)
Theorem modify_without_fields_changes_no_record
  (o : Oracle) (args : ModifyArgs.t) (file : File) :
  ModifyArgs.content args = None -> ModifyArgs.tags args = None ->
  ModifyArgs.context args = None -> ModifyArgs.importance args = None ->
  ModifyArgs.type args = None ->
  stored (snd (handleModify o args file)) = stored file /\
  ((exists m, In m (stored file) /\ id m = ModifyArgs.id args) ->
   exists storage,
     snd (handleModify o args file) = Document storage /\
     last_updated storage = saveTime o).
Proof.
  intros H1 H2 H3 H4 H5.
  destruct (handleModify_outcome o args file)
    as [[Hrun Habs] | [l1 [m [l2 [Hs [Hid [Hb Hrun]]]]]]]; rewrite Hrun;
    cbn [snd stored memories].
  - split; [reflexivity |]. intros [m [Hm Hid]]. now apply Habs in Hm.
  - rewrite (applyModify_nothing args m H1 H2 H3 H4 H5).
    split; [now rewrite Hs |]. intros _. eexists. split; reflexivity.
Qed.

(** X22.  Modifying twice with the same arguments is modifying once: the
    second call leaves the collection as the first one left it, and when
    the id is found its reply shows the same record before and after. *)
Theorem modify_again_changes_nothing
  (o o' : Oracle) (args : ModifyArgs.t) (file : File) :
  stored (snd (handleModify o' args (snd (handleModify o args file))))
  = stored (snd (handleModify o args file)) /\
  forall m m',
    fst (handleModify o args file)
    = Ok (Modified (ModifyArgs.id args) m m') ->
    fst (handleModify o' args (snd (handleModify o args file)))
    = Ok (Modified (ModifyArgs.id args) m' m').
Proof.
  destruct (handleModify_outcome o args file)
    as [[Hrun Habs] | [l1 [m [l2 [Hs [Hid [Hb Hrun]]]]]]]; rewrite Hrun;
    cbn [fst snd].
  - destruct (handleModify_outcome o' args file)
      as [[Hrun' _] | [l1 [m [l2 [Hs [Hid [_ _]]]]]]].
    + rewrite Hrun'. split; [reflexivity | discriminate].
    + exfalso. apply (Habs m); [| assumption].
      rewrite Hs. apply in_or_app. right. now left.
  - set (f1 := Document {| memories := l1 ++ applyModify args m :: l2;
                           version := version (loaded o file);
                           last_updated := saveTime o |}).
    assert (Hrun' : handleModify o' args f1
                    = (Ok (Modified (ModifyArgs.id args) (applyModify args m)
                                    (applyModify args m)),
                       Document {| memories := l1 ++ applyModify args m :: l2;
                                   version := version (loaded o' f1);
                                   last_updated := saveTime o' |})).
    { rewrite handleModify_run. cbn [f1 stored memories].
      rewrite findIndex_first.
      - now rewrite nth_error_middle, applyModify_twice, setAt_middle.
      - intros y Hy. apply String.eqb_neq. now apply Hb.
      - apply String.eqb_eq. exact Hid. }
    rewrite Hrun'. cbn [fst snd stored memories f1]. split; [reflexivity |].
    intros m0 m0' H. injection H as <- <-. reflexivity.
Qed.

(** X23.  A modify call, found or not, keeps the number of records, their
    order, and the id, timestamp and session of every record. *)
Theorem modify_keeps_ids_timestamps_and_sessions
  (o : Oracle) (args : ModifyArgs.t) (file : File) :
  map (fun m => (id m, timestamp m, session_id m))
      (stored (snd (handleModify o args file)))
  = map (fun m => (id m, timestamp m, session_id m)) (stored file).
Proof.
  destruct (handleModify_outcome o args file)
    as [[Hrun _] | [l1 [m [l2 [Hs [_ [_ Hrun]]]]]]]; rewrite Hrun;
    cbn [snd stored memories]; [reflexivity |].
  rewrite Hs, !map_app. reflexivity.
Qed.

Lemma sort_newest_last (getTime : string -> option Z) (l : list Memory)
  (m : Memory) (t : Z) :
  datedAll getTime l ->
  getTime (timestamp m) = Some t ->
  (forall x tx, In x l -> getTime (timestamp x) = Some tx -> (tx < t)%Z) ->
  exists rest, Js.sort (byTimestampDesc getTime) (l ++ [m]) = m :: rest.
Proof.
  intros Hd Hm Hnew. induction Hd as [|x l Hx Hl IH].
  - now exists [].
  - destruct IH as [rest Hrest].
    { intros y ty Hy. apply Hnew. now right. }
    unfold Js.sort in *. cbn [app fold_right]. rewrite Hrest.
    cbn [Js.insert].
    destruct (getTime (timestamp x)) as [tx|] eqn:Ex; [| contradiction].
    rewrite (sortCompare_dated getTime x m tx t Ex Hm).
    assert (tx < t)%Z by (apply (Hnew x); [now left | assumption]).
    destruct (t - tx <=? 0)%Z eqn:E; [apply Z.leb_le in E; lia |].
    eexists. reflexivity.
Qed.

(** X24.  A record just stored is found first: when the timestamps of the
    file are dates and the time of the reflect call is later than all of
    them, a recall without query and filters, with no limit given or a
    limit of at least 1, returns the new record at the head. *)
Theorem reflect_then_recall_returns_new_record_first
  (getTime : string -> option Z) (o o' : Oracle) (rargs : ReflectArgs.t)
  (limit : option Z) (file : File) (t : Z) :
  datedAll getTime (stored file) ->
  getTime (reflectTime o) = Some t ->
  (forall x tx, In x (stored file) -> getTime (timestamp x) = Some tx ->
                (tx < t)%Z) ->
  (forall n, limit = Some n -> (1 <= n)%Z) ->
  exists m rest,
    fst (handleReflect o rargs file) = Ok (Stored m) /\
    fst (handleRecall getTime o'
           {| RecallArgs.query := None; RecallArgs.tags := None;
              RecallArgs.session_id := None; RecallArgs.importance := None;
              RecallArgs.type := None; RecallArgs.limit := limit |}
           (snd (handleReflect o rargs file)))
    = Ok (Recalled (m :: rest)).
Proof.
  intros Hd Ht Hnew Hlim.
  destruct (handleReflect_run o rargs file) as [m [Hrun [_ [_ [Hts _]]]]].
  rewrite Hrun. cbn [fst snd]. rewrite handleRecall_run.
  cbn [stored memories RecallArgs.limit].
  rewrite recallSelection_filter, filter_all by reflexivity.
  destruct (sort_newest_last getTime (stored file) m t Hd) as [rest Hrest];
    [now rewrite Hts | assumption |].
  rewrite Hrest. exists m.
  assert (Hcut : forall n, (1 <= n)%Z ->
            exists rest', Js.slice0 (m :: rest) n = m :: rest').
  { intros n Hn. unfold Js.slice0.
    destruct (n <? 0)%Z eqn:E; [apply Z.ltb_lt in E; lia |].
    destruct (Z.to_nat n) as [|k] eqn:Ek; [lia |].
    eexists. reflexivity. }
  destruct limit as [n|].
  - specialize (Hlim n eq_refl).
    destruct (n =? 0)%Z eqn:E; [apply Z.eqb_eq in E; lia |].
    destruct (Hcut n Hlim) as [rest' Hr]. rewrite Hr. now exists rest'.
  - destruct (Hcut 10%Z ltac:(lia)) as [rest' Hr]. rewrite Hr.
    now exists rest'.
Qed.

(* ================================================================== *)
(** ** Properties of the argument validators *)
(* ================================================================== *)

(** X25.  Every argument record of the embedding, written as the object a
    caller sends, passes the validator of its tool. *)
Theorem validators_accept_well_typed_arguments :
  (forall a, Validate.isValidReflectArgs (Encode.reflectArgs a) = true) /\
  (forall a, Validate.isValidRecallArgs (Encode.recallArgs a) = true) /\
  (forall a, Validate.isValidModifyArgs (Encode.modifyArgs a) = true) /\
  (forall a, Validate.isValidEraseArgs (Encode.eraseArgs a) = true).
Proof.
  repeat split.
  - intros [c [t|] [cx|] [s|] [[| |]|] [[| | | |]|]]; reflexivity.
  - intros [[q|] [t|] [s|] [[| |]|] [[| | | |]|] [n|]]; reflexivity.
  - intros [i [c|] [t|] [cx|] [[| |]|] [[| | | |]|]]; reflexivity.
  - intros [[i|] [q|] [t|] [s|] [c|]]; reflexivity.
Qed.

(** X26.  What passes a validator is an object or an array, never [null],
    [undefined], a boolean, a number or a string; what passes the reflect
    validator is an object whose [content] is a string, and what passes the
    modify validator is an object whose [id] is a string. *)
Theorem validators_reject_non_objects_and_missing_required_fields
  (args : JsValue) :
  (Validate.isValidReflectArgs args = true \/
   Validate.isValidRecallArgs args = true \/
   Validate.isValidModifyArgs args = true \/
   Validate.isValidEraseArgs args = true ->
   (exists properties, args = JsObject properties) \/
   (exists items, args = JsArray items)) /\
  (Validate.isValidReflectArgs args = true ->
   exists properties c,
     args = JsObject properties /\
     Validate.lookup properties "content" = JsString c) /\
  (Validate.isValidModifyArgs args = true ->
   exists properties i,
     args = JsObject properties /\
     Validate.lookup properties "id" = JsString i).
Proof.
  split; [| split].
  - intros H. destruct args as [| | b | n | s | items | ps];
      try (destruct H as [H | [H | [H | H]]]; discriminate).
    + right. now exists items.
    + left. now exists ps.
  - intros H. destruct args as [| | b | n | s | items | ps];
      try discriminate.
    unfold Validate.isValidReflectArgs in H. cbn [Validate.get] in H.
    rewrite !andb_true_iff in H. destruct H as [[[[[[_ H] _] _] _] _] _].
    destruct (Validate.lookup ps "content") as [| | b | n | c | l | l] eqn:E;
      try discriminate.
    now exists ps, c.
  - intros H. destruct args as [| | b | n | s | items | ps];
      try discriminate.
    unfold Validate.isValidModifyArgs in H. cbn [Validate.get] in H.
    rewrite !andb_true_iff in H. destruct H as [[[[[[_ H] _] _] _] _] _].
    destruct (Validate.lookup ps "id") as [| | b | n | i | l | l] eqn:E;
      try discriminate.
    now exists ps, i.
Qed.

(** X27.  The validators look at the kind of a value only: they accept
    any array as [tags], whatever it holds, and the recall validator
    accepts any number as [limit], with no bound; an array in the place of
    the arguments passes the recall and the erase validators. *)
Theorem validators_check_kinds_only :
  (forall properties items items',
      Validate.isValidReflectArgs
        (JsObject (("tags", JsArray items) :: properties))
      = Validate.isValidReflectArgs
          (JsObject (("tags", JsArray items') :: properties)) /\
      Validate.isValidRecallArgs
        (JsObject (("tags", JsArray items) :: properties))
      = Validate.isValidRecallArgs
          (JsObject (("tags", JsArray items') :: properties)) /\
      Validate.isValidModifyArgs
        (JsObject (("tags", JsArray items) :: properties))
      = Validate.isValidModifyArgs
          (JsObject (("tags", JsArray items') :: properties)) /\
      Validate.isValidEraseArgs
        (JsObject (("tags", JsArray items) :: properties))
      = Validate.isValidEraseArgs
          (JsObject (("tags", JsArray items') :: properties))) /\
  (forall properties n n',
      Validate.isValidRecallArgs
        (JsObject (("limit", JsNumber n) :: properties))
      = Validate.isValidRecallArgs
          (JsObject (("limit", JsNumber n') :: properties))) /\
  (forall items,
      Validate.isValidRecallArgs (JsArray items) = true /\
      Validate.isValidEraseArgs (JsArray items) = true).
Proof.
  split; [| split].
  - intros. repeat split; reflexivity.
  - intros. reflexivity.
  - intros. split; reflexivity.
Qed.

(* ================================================================== *)
(** ** The further properties on the sample store *)
(* ================================================================== *)

Lemma Sample_ids_distinct : NoDup (map id (stored Calls.file)).
Proof. simpl. repeat constructor; simpl; intuition discriminate. Defined.

Lemma Sample_dated : datedAll IsoDate.getTime (stored Calls.file).
Proof. repeat constructor; vm_compute; discriminate. Defined.

Lemma ids_distinct_witness :
  NoDup (map id (stored (snd (callTool IsoDate.getTime Sample.oracle
                                (reflect Calls.reflectCats) Calls.file)))).
Proof.
  apply tool_calls_keep_ids_distinct.
  - exact Sample_ids_distinct.
  - intros args _. simpl. intuition discriminate.
Defined.

Lemma throws_witness :
  snd (rethrowOrReply
         (throw (McpError InvalidParams "Invalid modify arguments"))
         Calls.file) = Calls.file /\
  snd (rethrowOrReply (handleModify Sample.oracle Calls.modifyAbsent)
         Calls.file) = Calls.file.
Proof.
  split.
  - exact (proj1 (tool_call_throws_in_four_cases_only
                    IsoDate.getTime Sample.oracle "modify"
                    (JsObject [("content", JsString "changed")])
                    (rethrowOrReply
                       (throw (McpError InvalidParams
                                        "Invalid modify arguments")))
                    Calls.file
                    (McpError InvalidParams "Invalid modify arguments")
                    eq_refl eq_refl)).
  - exact (proj1 (tool_call_throws_in_four_cases_only
                    IsoDate.getTime Sample.oracle "modify"
                    (Encode.modifyArgs Calls.modifyAbsent)
                    (rethrowOrReply
                       (handleModify Sample.oracle Calls.modifyAbsent))
                    Calls.file (notFound "m-9") eq_refl eq_refl)).
Defined.

Lemma filter_witness :
  In Sample.typescript
     (filterMemories (memories Sample.storage)
        {| Filters.tags := Some ["b"]; Filters.session_id := Some "";
           Filters.importance := Some high;
           Filters.type := Some preference |}).
Proof.
  apply (proj2 (filter_keeps_records_passing_every_supplied_filter _ _ _)).
  split; [simpl; auto |]. repeat split.
  - intros wanted H. injection H as <-. exists "b". simpl. auto.
  - intros s H Hne. injection H as <-. now contradiction Hne.
  - intros i H. now injection H as <-.
  - intros t H. now injection H as <-.
Defined.

Lemma recall_reads_only_witness :
  snd (handleRecall IsoDate.getTime Sample.oracle (Calls.recallPrefers None)
         Missing) = Missing /\
  forall m, In m [Sample.dogs] ->
            In m (stored Calls.file) /\
            recallTest (Calls.recallPrefers (Some 1%Z)) m = true.
Proof.
  split.
  - exact (proj1 (recall_reads_only_and_returns_selected_records
                    IsoDate.getTime Sample.oracle (Calls.recallPrefers None)
                    Missing)).
  - exact (proj2 (proj2 (recall_reads_only_and_returns_selected_records
                           IsoDate.getTime Sample.oracle
                           (Calls.recallPrefers (Some 1%Z)) Calls.file)
                        [Sample.dogs] eq_refl)).
Defined.

Lemma recall_count_witness :
  exists found,
    handleRecall IsoDate.getTime Sample.oracle
      (Calls.recallPrefers (Some 150%Z)) Calls.file
    = (Ok (Recalled found), Calls.file) /\
    List.length found
    = Nat.min (Z.to_nat 150)
        (List.length (recallSelection (Calls.recallPrefers (Some 150%Z))
                                      (stored Calls.file))).
Proof.
  apply (recall_count_is_limit_or_all IsoDate.getTime Sample.oracle
           (Calls.recallPrefers (Some 150%Z)) Calls.file 150 eq_refl).
  lia.
Defined.

Lemma recall_negative_limit_witness :
  exists found ordered,
    handleRecall IsoDate.getTime Sample.oracle
      (Calls.recallPrefers (Some (-1)%Z)) Calls.file
    = (Ok (Recalled found), Calls.file) /\
    Permutation ordered
      (recallSelection (Calls.recallPrefers (Some (-1)%Z))
                       (stored Calls.file)) /\
    (datedAll IsoDate.getTime (stored Calls.file) ->
     StronglySorted (newerFirst IsoDate.getTime) ordered) /\
    found = firstn (List.length ordered - Z.to_nat (- -1)) ordered.
Proof.
  apply (recall_negative_limit_drops_from_the_end IsoDate.getTime
           Sample.oracle (Calls.recallPrefers (Some (-1)%Z)) Calls.file
           (-1) eq_refl).
  lia.
Defined.

Lemma recall_within_limit_witness :
  exists found,
    handleRecall IsoDate.getTime Sample.oracle (Calls.recallPrefers None)
      Calls.file = (Ok (Recalled found), Calls.file) /\
    Permutation found
      (recallSelection (Calls.recallPrefers None) (stored Calls.file)) /\
    (datedAll IsoDate.getTime (stored Calls.file) ->
     forall t, filter (sameInstant IsoDate.getTime t) found
               = filter (sameInstant IsoDate.getTime t)
                   (recallSelection (Calls.recallPrefers None)
                                    (stored Calls.file))).
Proof.
  apply recall_within_limit_returns_all_and_keeps_ties_in_order.
  - cbn. lia.
  - vm_compute. lia.
Defined.

Lemma search_case_witness :
  searchMemories (memories Sample.storage) (Some "TypeScript")
  = searchMemories (memories Sample.storage) (Some "typescript").
Proof.
  apply search_ignores_case_of_query.
  apply toLowerCase_same. reflexivity.
Defined.

Lemma search_part_witness :
  In Sample.typescript
     (searchMemories (memories Sample.storage) (Some "Script")).
Proof.
  apply (search_with_part_of_query_keeps_matches
           (memories Sample.storage) "Type" "Script" "" Sample.typescript).
  cbv. auto.
Defined.

Lemma bulk_erase_again_witness :
  fst (handleErase Sample.oracle Calls.eraseByTag
         (snd (handleErase Sample.oracle Calls.eraseByTag Calls.file)))
  = Ok (DeletedBulk 0) /\
  stored (snd (handleErase Sample.oracle Calls.eraseByTag
                 (snd (handleErase Sample.oracle Calls.eraseByTag
                         Calls.file))))
  = stored (snd (handleErase Sample.oracle Calls.eraseByTag Calls.file)).
Proof.
  apply bulk_erase_again_removes_nothing; reflexivity.
Defined.

Lemma bulk_erase_unselected_witness :
  stored (snd (handleErase Sample.oracle Calls.eraseByTag Calls.file))
  = filter (fun m => negb (eraseTest Calls.eraseByTag m)) (stored Calls.file).
Proof.
  apply (proj1 (bulk_erase_keeps_exactly_the_unselected Sample.oracle
                  Calls.eraseByTag Calls.file eq_refl eq_refl
                  Sample_ids_distinct)).
Defined.

Lemma erase_by_id_again_witness :
  handleErase Sample.oracle (Calls.eraseById "m-2")
    (snd (handleErase Sample.oracle (Calls.eraseById "m-2") Calls.file))
  = (Throw (notFound "m-2"),
     snd (handleErase Sample.oracle (Calls.eraseById "m-2") Calls.file)).
Proof.
  apply (erase_by_id_leaves_no_record_of_that_id Sample.oracle Sample.oracle
           (Calls.eraseById "m-2") Calls.file "m-2" eq_refl).
  discriminate.
Defined.

Lemma reflect_then_erase_witness :
  fst (handleErase Sample.oracle (Calls.eraseById "m-3")
         (snd (handleReflect Sample.oracle Calls.reflectCats Calls.file)))
  = Ok (Deleted "m-3") /\
  stored (snd (handleErase Sample.oracle (Calls.eraseById "m-3")
                 (snd (handleReflect Sample.oracle Calls.reflectCats
                         Calls.file))))
  = stored Calls.file.
Proof.
  apply (reflect_then_erase_by_id_restores_records Sample.oracle
           Sample.oracle Calls.reflectCats (Calls.eraseById "m-3")
           Calls.file).
  - discriminate.
  - simpl. intuition discriminate.
  - reflexivity.
Defined.

Lemma modify_without_fields_witness :
  stored (snd (handleModify Sample.oracle Calls.modifyNothing Calls.file))
  = stored Calls.file.
Proof.
  apply (proj1 (modify_without_fields_changes_no_record Sample.oracle
                  Calls.modifyNothing Calls.file
                  eq_refl eq_refl eq_refl eq_refl eq_refl)).
Defined.

Lemma modify_again_witness :
  fst (handleModify Sample.oracle Calls.modifyDogs
         (snd (handleModify Sample.oracle Calls.modifyDogs Calls.file)))
  = Ok (Modified "m-2" (applyModify Calls.modifyDogs Sample.dogs)
                 (applyModify Calls.modifyDogs Sample.dogs)).
Proof.
  apply (proj2 (modify_again_changes_nothing Sample.oracle Sample.oracle
                  Calls.modifyDogs Calls.file) Sample.dogs).
  reflexivity.
Defined.

Lemma reflect_then_recall_witness :
  exists m rest,
    fst (handleReflect Sample.oracle Calls.reflectCats Calls.file)
    = Ok (Stored m) /\
    fst (handleRecall IsoDate.getTime Sample.oracle
           {| RecallArgs.query := None; RecallArgs.tags := None;
              RecallArgs.session_id := None; RecallArgs.importance := None;
              RecallArgs.type := None; RecallArgs.limit := None |}
           (snd (handleReflect Sample.oracle Calls.reflectCats Calls.file)))
    = Ok (Recalled (m :: rest)).
Proof.
  apply (reflect_then_recall_returns_new_record_first IsoDate.getTime
           Sample.oracle Sample.oracle Calls.reflectCats None Calls.file
           1717228800001%Z).
  - exact Sample_dated.
  - reflexivity.
  - intros x tx [<- | [<- | []]] H; vm_compute in H; injection H as <-; lia.
  - intros n H. discriminate.
Defined.

Lemma validators_required_fields_witness :
  exists properties c,
    Encode.reflectArgs Calls.reflectCats = JsObject properties /\
    Validate.lookup properties "content" = JsString c.
Proof.
  apply (proj1 (proj2
           (validators_reject_non_objects_and_missing_required_fields
              (Encode.reflectArgs Calls.reflectCats)))).
  reflexivity.
Defined.
